(** * coc.py: wars, war attacks and league groups

    A shallow embedding of [coc/war_attack.py] and [coc/wars.py]: the
    derived properties of a war ([attacks], [members], [type], [status],
    [is_cwl], [get_attack]), the freshness of an attack, and the round
    filtering, clan cache and round lookup of a league group.

    Python values are embedded as follows: [int] is [Z], [float] is the
    kernel's binary64 [float], [str] is [string], [None]-or-a-value is
    [option], a list is [list], and a call that may raise returns
    [Py.result]. *)

From Stdlib Require Import ZArith List String Bool Lia.
From Stdlib Require Import Sorted Permutation Floats.
Import ListNotations.

(* Decimal literals denote the nearest binary64 value, as in Python. *)
#[local] Set Warnings "-inexact-float".

Local Open Scope string_scope.
Local Open Scope list_scope.
Local Open Scope Z_scope.

(* ================================================================== *)
(** * The fragment of the Python runtime the sources rely on *)
(* ================================================================== *)

Module Py.

(** The built-in exceptions that the embedded code can raise. *)
Inductive exn : Set :=
| IndexError
| ValueError
| AttributeError
| TypeError
| KeyError.

(** The outcome of a call: a value, or a raised exception. *)
Inductive result (A : Type) : Type :=
| Ok (a : A)
| Raise (e : exn).
Arguments Ok {A} a.
Arguments Raise {A} e.

Definition bind {A B : Type} (r : result A) (k : A -> result B) : result B :=
  match r with
  | Ok a => k a
  | Raise e => Raise e
  end.

(** [x == s] for [x] a [str] or [None]. *)
Definition str_eq (x : option string) (s : string) : bool :=
  match x with
  | Some y => String.eqb y s
  | None => false
  end.

(** Truth value of a [str] or [None]: only a non-empty string is true. *)
Definition truthy_str (x : option string) : bool :=
  match x with
  | Some EmptyString => false
  | Some _ => true
  | None => false
  end.

(** Truth value of an object of a class that defines neither [__bool__]
    nor [__len__], or [None]. *)
Definition truthy_obj {A : Type} (x : option A) : bool :=
  match x with
  | Some _ => true
  | None => false
  end.

(** Truth value of a list. *)
Definition truthy_list {A : Type} (l : list A) : bool :=
  match l with
  | [] => false
  | _ :: _ => true
  end.

(** [len(l)]. *)
Definition len {A : Type} (l : list A) : Z := Z.of_nat (List.length l).

(** [l[i]]: a negative index counts from the end, and an index outside
    [-len(l) .. len(l) - 1] raises [IndexError]. *)
Definition getitem {A : Type} (l : list A) (i : Z) : result A :=
  let j := if i <? 0 then i + len l else i in
  if (j <? 0) || (len l <=? j) then Raise IndexError
  else match nth_error l (Z.to_nat j) with
       | Some x => Ok x
       | None => Raise IndexError
       end.

(** [min(iterable)] over integers: [ValueError] on an empty iterable. *)
Definition min (l : list Z) : result Z :=
  match l with
  | [] => Raise ValueError
  | x :: r => Ok (fold_left Z.min r x)
  end.

(** [False < True] on [bool]. *)
Definition bool_lt (a b : bool) : bool := negb a && b.

(** [<] on tuples [(bool, int)]: the first components that differ decide. *)
Definition tuple_lt (a b : bool * Z) : bool :=
  if Bool.eqb (fst a) (fst b) then snd a <? snd b
  else bool_lt (fst a) (fst b).

(** [sorted(l, key=key, reverse=reverse)].  The sort only uses [<] on the
    keys and is stable, also when reversed: [x], met before [y] in [l],
    stays in front of [y] unless the key of [y] is strictly smaller
    (strictly greater when reversed).  A stable sort has one possible
    result, computed here by insertion from the right. *)
Section Sorted.
Context {A K : Type}.
Variable lt : K -> K -> bool.
Variable key : A -> K.
Variable reverse : bool.

Definition stays_before (x y : A) : bool :=
  if reverse then negb (lt (key x) (key y))
  else negb (lt (key y) (key x)).

Fixpoint insert (x : A) (l : list A) : list A :=
  match l with
  | [] => [x]
  | y :: r => if stays_before x y then x :: y :: r else y :: insert x r
  end.

Definition sorted (l : list A) : list A := fold_right insert [] l.
End Sorted.

(** [datetime], at the resolution of the API's timestamps
    ([%Y%m%dT%H%M%S.000Z]): whole seconds on the UTC time line. *)
Definition datetime : Set := Z.

(** [timedelta], normalised as Python does: [0 <= seconds < 86400], the
    rest is carried by [days] (which may be negative). *)
Record timedelta : Set := { days : Z; seconds : Z }.

(** [a - b] on [datetime]. *)
Definition datetime_sub (a b : datetime) : timedelta :=
  {| days := (a - b) / 86400; seconds := (a - b) mod 86400 |}.

End Py.

Declare Scope py_scope.
Delimit Scope py_scope with py.
Notation "x <- e ;; k" := (Py.bind e (fun x => k))
  (at level 61, e at next level, right associativity) : py_scope.
Local Open Scope py_scope.

(* ================================================================== *)
(** * Collaborators outside the two source files *)
(* ================================================================== *)

Module Timestamp.
(** Modelled from the spec: [miscmodels.Timestamp] is not among the
    sources; a timestamp of the war ("preparation start, battle start,
    battle end") exposes the instant it denotes as [time]. *)
Record t : Set := { time : Py.datetime }.
End Timestamp.

Module utils.
(** Modelled from the spec: [utils.get] is not among the sources; with
    one keyword criterion [attr=val] it is a "first-match, linear scan"
    returning the first element whose attribute equals the value, and
    the "not found" sentinel [None] if none does. *)
Definition get {A V : Type} (eqb : V -> V -> bool)
    (iterable : list A) (attr : A -> V) (val : V) : option A :=
  find (fun elem => eqb (attr elem) val) iterable.
End utils.

(* ================================================================== *)
(** * war_attack.py *)
(* ================================================================== *)

Module WarAttack.

(** The attributes set by [_from_data]. *)
Record t : Set := {
  stars : Z;
  destruction : float;
  order : Z;
  attacker_tag : string;
  defender_tag : string
}.

(** The back-reference [self.war] is used through [war.get_member] only,
    and the member it returns through its [defenses] only; the properties
    take both, so that they can be stated before the war itself. *)
Section InWar.
Context {Member : Type}.
Variable war_get_member : string -> option Member.
Variable defenses : Member -> list t.

Definition attacker (self : t) : option Member :=
  war_get_member (attacker_tag self).

Definition defender (self : t) : option Member :=
  war_get_member (defender_tag self).

(** [self.defender.defenses] raises [AttributeError] when the defender
    is [None]; [min] raises [ValueError] when there is no defense. *)
Definition is_fresh_attack (self : t) : Py.result bool :=
  match defender self with
  | None => Py.Raise Py.AttributeError
  | Some d =>
      if Py.len (defenses d) =? 1 then Py.Ok true
      else m <- Py.min (map order (defenses d)) ;;
           Py.Ok (m =? order self)
  end.
End InWar.

End WarAttack.

Module ClanWarMember.
(** [war_members.py] is not among the sources: the attributes of a member
    that the two files read are taken as given. *)
Record t : Set := {
  tag : string;
  map_position : Z;
  is_opponent : bool;
  attacks : list WarAttack.t;
  defenses : list WarAttack.t
}.
End ClanWarMember.

Module WarClan.
(** [war_clans.py] is not among the sources: the attributes of a side
    that [wars.py] reads are taken as given. *)
Record t : Set := {
  tag : string;
  stars : Z;
  destruction : float;
  attacks : list WarAttack.t;
  members : list ClanWarMember.t
}.

(** Modelled from the spec: [WarClan.get_member] is not among the
    sources; the roster lookup, "given a tag, returns a member entity or
    a not-found sentinel". *)
Definition get_member (self : t) (tag : string) : option ClanWarMember.t :=
  find (fun m => String.eqb (ClanWarMember.tag m) tag) (members self).
End WarClan.

(* ================================================================== *)
(** * wars.py: ClanWar *)
(* ================================================================== *)

Module ClanWar.

(** The attributes set by [_from_data]; [data.get] leaves [None] where
    the key is missing, and [try_enum] keeps a [None]. *)
Record t : Set := {
  state : option string;
  preparation_start_time : option Timestamp.t;
  start_time : option Timestamp.t;
  end_time : option Timestamp.t;
  team_size : Z;
  war_tag : option string;
  clan : WarClan.t;
  opponent : WarClan.t
}.

Definition attacks (self : t) : list WarAttack.t :=
  Py.sorted Z.ltb WarAttack.order true
    (WarClan.attacks (clan self) ++ WarClan.attacks (opponent self)).

Definition members (self : t) : list ClanWarMember.t :=
  Py.sorted Py.tuple_lt
    (fun x => (negb (ClanWarMember.is_opponent x), ClanWarMember.map_position x))
    false
    (WarClan.members (clan self) ++ WarClan.members (opponent self)).

Definition prep_list : list Z :=
  [ 15 * 60;
    30 * 60;
    60 * 60;
    2 * 60 * 60;
    4 * 60 * 60;
    6 * 60 * 60;
    8 * 60 * 60;
    12 * 60 * 60;
    16 * 60 * 60;
    20 * 60 * 60;
    24 * 60 * 60 ].

(** [x in prep_list]. *)
Definition in_prep_list (x : Z) : bool := existsb (Z.eqb x) prep_list.

(** [self.preparation_start_time.time] raises [AttributeError] when the
    preparation start is [None]. *)
Definition type (self : t) : Py.result (option string) :=
  if Py.truthy_str (war_tag self) then Py.Ok (Some "cwl")
  else if negb (Py.truthy_obj (start_time self)) then Py.Ok None
  else
    match start_time self, preparation_start_time self with
    | Some st, Some pt =>
        if in_prep_list
             (Py.seconds (Py.datetime_sub (Timestamp.time st) (Timestamp.time pt)))
        then Py.Ok (Some "friendly")
        else Py.Ok (Some "random")
    | _, _ => Py.Raise Py.AttributeError
    end.

Definition status (self : t) : string :=
  let home := clan self in
  let away := opponent self in
  if Py.str_eq (state self) "inWar" then
    if WarClan.stars home >? WarClan.stars away then "winning"
    else if WarClan.stars home =? WarClan.stars away then
      if PrimFloat.ltb (WarClan.destruction away) (WarClan.destruction home)
      then "winning"
      else if PrimFloat.eqb (WarClan.destruction home) (WarClan.destruction away)
      then "tied"
      else "losing"
    else "losing"
  else if Py.str_eq (state self) "warEnded" then
    if WarClan.stars home >? WarClan.stars away then "won"
    else if WarClan.stars home =? WarClan.stars away then
      if PrimFloat.ltb (WarClan.destruction away) (WarClan.destruction home)
      then "won"
      else if PrimFloat.eqb (WarClan.destruction home) (WarClan.destruction away)
      then "tie"
      else "lost"
    else "lost"
  else EmptyString.

Definition is_cwl (self : t) : Py.result bool :=
  ty <- type self ;; Py.Ok (Py.str_eq ty "cwl").

Definition get_member (self : t) (tag : string) : option ClanWarMember.t :=
  let home_member := WarClan.get_member (clan self) tag in
  if Py.truthy_obj home_member then home_member
  else WarClan.get_member (opponent self) tag.

(** [get_member_by] called with one keyword criterion [attr=val]. *)
Definition get_member_by {V : Type} (eqb : V -> V -> bool)
    (attr : ClanWarMember.t -> V) (val : V) (self : t) : option ClanWarMember.t :=
  utils.get eqb (members self) attr val.

Definition get_attack (self : t) (attacker_tag defender_tag : string)
  : option WarAttack.t :=
  match get_member self attacker_tag with
  | None => None
  | Some attacker =>
      let attacks := ClanWarMember.attacks attacker in
      if Py.len attacks =? 0 then None
      else utils.get String.eqb attacks WarAttack.defender_tag defender_tag
  end.

(** [WarAttack.is_fresh_attack] of an attack whose [war] is [self]. *)
Definition is_fresh_attack (self : t) (attack : WarAttack.t) : Py.result bool :=
  WarAttack.is_fresh_attack (get_member self) ClanWarMember.defenses attack.

End ClanWar.

(* ================================================================== *)
(** * wars.py: ClanWarLeagueGroup *)
(* ================================================================== *)

Module LeagueWarIterator.
(** [iterators.py] is not among the sources: the iterator that
    [get_wars] returns is represented by the arguments it is built from,
    the tags of the resolved round (in order) and the cache flag. The
    client and the war constructor are passed through untouched and are
    left out. *)
Record t : Set := { tags : list string; cache : bool }.
End LeagueWarIterator.

Module ClanWarLeagueGroup.

(** One entry of [data["rounds"]]; [n["warTags"]] raises [KeyError] when
    the key is missing. *)
Record round_data : Set := { warTags : option (list string) }.

(** The comprehension
    [[n["warTags"] for n in rounds if n["warTags"][0] != "#0"]]. *)
Fixpoint valid_rounds (rounds : list round_data) : Py.result (list (list string)) :=
  match rounds with
  | [] => Py.Ok []
  | n :: rest =>
      war_tags <- match warTags n with
                  | Some ts => Py.Ok ts
                  | None => Py.Raise Py.KeyError
                  end ;;
      first <- Py.getitem war_tags 0 ;;
      kept <- valid_rounds rest ;;
      Py.Ok (if negb (String.eqb first "#0") then war_tags :: kept else kept)
  end.

Section Group.
(** [ClanWarLeagueClan] (in [war_clans.py]) is not among the sources:
    the payload of a clan and the constructor are taken as given. *)
Context {ClanData Clan : Type}.
Variable ClanWarLeagueClan : ClanData -> Clan.

(** The keys of the payload that [_from_data] reads; [None] is a
    missing key. *)
Record data : Type := {
  data_state : option string;
  data_season : option string;
  data_rounds : option (list round_data);
  data_clans : option (list ClanData)
}.

(** A list object: its identity and its content. *)
Record pylist : Type := { id : nat; items : list Clan }.

(** What an access can change besides the group: the lists allocated so
    far, and the log of the [ClanWarLeagueClan] constructions. *)
Record store : Type := { next_id : nat; constructed : list ClanData }.

(** The attributes of a group.  [__iter_clans] is the generator
    [(ClanWarLeagueClan(data=data, ...) for data in ...)], held as the
    payloads it has not consumed yet. *)
Record t : Type := {
  state : option string;
  season : option string;
  rounds : list (list string);
  number_of_rounds : Z;
  _clans : pylist;
  __iter_clans : list ClanData
}.

(** A new list object with the given content. *)
Definition new_list (content : list Clan) (s : store) : pylist * store :=
  ({| id := next_id s; items := content |},
   {| next_id := S (next_id s); constructed := constructed s |}).

(** [list(gen)]: runs the generator to its end, which constructs one
    clan per remaining payload, and collects them in a new list. *)
Definition list_of_generator (gen : list ClanData) (s : store)
  : pylist * list ClanData * store :=
  let s1 := {| next_id := next_id s; constructed := constructed s ++ gen |} in
  let (l, s2) := new_list (map ClanWarLeagueClan gen) s1 in
  (l, [], s2).

Definition _from_data (self : t) (d : data) : Py.result t :=
  rounds <- match data_rounds d with
            | Some r => Py.Ok r
            | None => Py.Raise Py.TypeError
            end ;;
  let number_of_rounds := Py.len rounds in
  valid <- valid_rounds rounds ;;
  Py.Ok {| state := data_state d;
           season := data_season d;
           rounds := valid;
           number_of_rounds := number_of_rounds;
           _clans := _clans self;
           __iter_clans := match data_clans d with
                           | Some cs => cs
                           | None => []
                           end |}.

Definition __init__ (d : data) (s : store) : Py.result (t * store) :=
  let (empty, s1) := new_list [] s in
  self <- _from_data {| state := None; season := None; rounds := [];
                        number_of_rounds := 0; _clans := empty;
                        __iter_clans := [] |} d ;;
  Py.Ok (self, s1).

Definition clans (self : t) (s : store) : pylist * t * store :=
  let clans := _clans self in
  if Py.truthy_list (items clans) then (clans, self, s)
  else
    let '(clans, gen, s1) := list_of_generator (__iter_clans self) s in
    (clans,
     {| state := state self; season := season self; rounds := rounds self;
        number_of_rounds := number_of_rounds self;
        _clans := clans; __iter_clans := gen |},
     s1).

Definition default_round_index : Z := -2.

Definition get_wars (self : t) (round_index : Z) (cache : bool)
  : Py.result LeagueWarIterator.t :=
  let round_index :=
    if (Py.len (rounds self) =? 1) && (Z.abs round_index >? 1) then -1
    else round_index in
  tags <- Py.getitem (rounds self) round_index ;;
  Py.Ok {| LeagueWarIterator.tags := tags; LeagueWarIterator.cache := cache |}.
End Group.

Arguments data ClanData : clear implicits.
Arguments pylist Clan : clear implicits.
Arguments store ClanData : clear implicits.
Arguments t ClanData Clan : clear implicits.

End ClanWarLeagueGroup.

(* ================================================================== *)
(** * Sample wars *)
(* ================================================================== *)

Module Sample.

Definition side (tag : string) (stars : Z) (destruction : float)
    (attacks : list WarAttack.t) (members : list ClanWarMember.t) : WarClan.t :=
  {| WarClan.tag := tag; WarClan.stars := stars;
     WarClan.destruction := destruction;
     WarClan.attacks := attacks; WarClan.members := members |}.

(** A war without members, given by its state and the two scores. *)
Definition scored (state : option string) (hs : Z) (hd : float) (os : Z) (od : float)
  : ClanWar.t :=
  {| ClanWar.state := state;
     ClanWar.preparation_start_time := None;
     ClanWar.start_time := None;
     ClanWar.end_time := None;
     ClanWar.team_size := 5;
     ClanWar.war_tag := None;
     ClanWar.clan := side "#HOME" hs hd [] [];
     ClanWar.opponent := side "#AWAY" os od [] [] |}.

(** A war without members, given by its tag and its two timestamps (in
    seconds). *)
Definition timed (war_tag : option string) (prep start : option Z) : ClanWar.t :=
  {| ClanWar.state := Some "inWar";
     ClanWar.preparation_start_time := option_map Timestamp.Build_t prep;
     ClanWar.start_time := option_map Timestamp.Build_t start;
     ClanWar.end_time := None;
     ClanWar.team_size := 5;
     ClanWar.war_tag := war_tag;
     ClanWar.clan := side "#HOME" 0 0%float [] [];
     ClanWar.opponent := side "#AWAY" 0 0%float [] [] |}.

(** A war of two members a side and three attacks: [a1] and [a3] from the
    home side on the opponent's first member, [a2] from the opponent on
    the home side's first member. *)
Definition attack (order : Z) (attacker_tag defender_tag : string) : WarAttack.t :=
  {| WarAttack.stars := 2; WarAttack.destruction := 75%float;
     WarAttack.order := order;
     WarAttack.attacker_tag := attacker_tag;
     WarAttack.defender_tag := defender_tag |}.

Definition a1 : WarAttack.t := attack 1 "#H1" "#O1".
Definition a2 : WarAttack.t := attack 2 "#O1" "#H1".
Definition a3 : WarAttack.t := attack 3 "#H2" "#O1".

Definition member (tag : string) (map_position : Z) (is_opponent : bool)
    (attacks defenses : list WarAttack.t) : ClanWarMember.t :=
  {| ClanWarMember.tag := tag;
     ClanWarMember.map_position := map_position;
     ClanWarMember.is_opponent := is_opponent;
     ClanWarMember.attacks := attacks;
     ClanWarMember.defenses := defenses |}.

Definition h1 : ClanWarMember.t := member "#H1" 1 false [a1] [a2].
Definition h2 : ClanWarMember.t := member "#H2" 2 false [a3] [].
Definition o1 : ClanWarMember.t := member "#O1" 1 true [a2] [a1; a3].
Definition o2 : ClanWarMember.t := member "#O2" 2 true [] [].

Definition battle : ClanWar.t :=
  {| ClanWar.state := Some "inWar";
     ClanWar.preparation_start_time := Some (Timestamp.Build_t 1577836800);
     ClanWar.start_time := Some (Timestamp.Build_t 1577919600);
     ClanWar.end_time := Some (Timestamp.Build_t 1578006000);
     ClanWar.team_size := 2;
     ClanWar.war_tag := None;
     ClanWar.clan := side "#HOME" 4 150%float [a1; a3] [h2; h1];
     ClanWar.opponent := side "#AWAY" 2 75%float [a2] [o2; o1] |}.

(** League groups: a clan's payload is its tag, and a league clan keeps
    the tag it was constructed from. *)
Record league_clan : Set := { league_clan_tag : string }.

Definition round (war_tags : list string) : ClanWarLeagueGroup.round_data :=
  {| ClanWarLeagueGroup.warTags := Some war_tags |}.

Definition league_data (rounds : list (list string)) (clans : list string)
  : ClanWarLeagueGroup.data string :=
  {| ClanWarLeagueGroup.data_state := Some "inWar";
     ClanWarLeagueGroup.data_season := Some "2020-01";
     ClanWarLeagueGroup.data_rounds := Some (map round rounds);
     ClanWarLeagueGroup.data_clans := Some clans |}.

Definition store0 : ClanWarLeagueGroup.store string :=
  {| ClanWarLeagueGroup.next_id := 0; ClanWarLeagueGroup.constructed := [] |}.

(** The group [__init__] builds from the payload, or a group without
    rounds if the construction raises. *)
Definition league (rounds : list (list string)) (clans : list string)
  : ClanWarLeagueGroup.t string league_clan * ClanWarLeagueGroup.store string :=
  match ClanWarLeagueGroup.__init__ (league_data rounds clans) store0 with
  | Py.Ok r => r
  | Py.Raise _ =>
      ({| ClanWarLeagueGroup.state := None; ClanWarLeagueGroup.season := None;
          ClanWarLeagueGroup.rounds := []; ClanWarLeagueGroup.number_of_rounds := 0;
          ClanWarLeagueGroup._clans :=
            {| ClanWarLeagueGroup.id := 0; ClanWarLeagueGroup.items := [] |};
          ClanWarLeagueGroup.__iter_clans := [] |}, store0)
  end.

End Sample.

(* ================================================================== *)
(** * The vocabulary of the properties *)
(* ================================================================== *)

(** The home side is ahead in the two-level comparison: more stars, or as
    many stars and a strictly greater destruction. *)
Definition home_ahead (w : ClanWar.t) : Prop :=
  WarClan.stars (ClanWar.clan w) > WarClan.stars (ClanWar.opponent w)
  \/ (WarClan.stars (ClanWar.clan w) = WarClan.stars (ClanWar.opponent w)
      /\ PrimFloat.ltb (WarClan.destruction (ClanWar.opponent w))
                       (WarClan.destruction (ClanWar.clan w)) = true).

(** The two sides are level: as many stars and an equal destruction. *)
Definition level (w : ClanWar.t) : Prop :=
  WarClan.stars (ClanWar.clan w) = WarClan.stars (ClanWar.opponent w)
  /\ PrimFloat.eqb (WarClan.destruction (ClanWar.clan w))
                   (WarClan.destruction (ClanWar.opponent w)) = true.

(** The war with its tag removed. *)
Definition without_tag (w : ClanWar.t) : ClanWar.t :=
  {| ClanWar.state := ClanWar.state w;
     ClanWar.preparation_start_time := ClanWar.preparation_start_time w;
     ClanWar.start_time := ClanWar.start_time w;
     ClanWar.end_time := ClanWar.end_time w;
     ClanWar.team_size := ClanWar.team_size w;
     ClanWar.war_tag := None;
     ClanWar.clan := ClanWar.clan w;
     ClanWar.opponent := ClanWar.opponent w |}.

(** The timestamps are consistent: a war with a battle start has a
    preparation start. *)
Definition timestamps_ok (w : ClanWar.t) : Prop :=
  ClanWar.start_time w = None \/ ClanWar.preparation_start_time w <> None.

(** The orders are unique across both sides of the war. *)
Definition unique_orders (w : ClanWar.t) : Prop :=
  NoDup (map WarAttack.order
           (WarClan.attacks (ClanWar.clan w) ++ WarClan.attacks (ClanWar.opponent w))).

(** The members of a list are in ascending order of map position. *)
Definition ascending_positions (l : list ClanWarMember.t) : Prop :=
  StronglySorted
    (fun a b => ClanWarMember.map_position a <= ClanWarMember.map_position b) l.

(** The members view lists all members of the side [first], in ascending
    order of map position, and then all members of the side [second], in
    ascending order of map position. *)
Definition listed_side_by_side (w : ClanWar.t) (first second : WarClan.t) : Prop :=
  exists l1 l2,
    ClanWar.members w = l1 ++ l2
    /\ Permutation l1 (WarClan.members first)
    /\ Permutation l2 (WarClan.members second)
    /\ ascending_positions l1
    /\ ascending_positions l2.

(** [is_opponent] tells the two sides apart: it is false on the home
    side's members and true on the opponent side's members. *)
Definition sides_marked (w : ClanWar.t) : Prop :=
  Forall (fun m => ClanWarMember.is_opponent m = false) (WarClan.members (ClanWar.clan w))
  /\ Forall (fun m => ClanWarMember.is_opponent m = true)
       (WarClan.members (ClanWar.opponent w)).

(** [m] is the minimum of [l]. *)
Definition is_minimum (m : Z) (l : list Z) : Prop :=
  In m l /\ forall x, In x l -> m <= x.

(** The defender of an attack, resolved in war [w]. *)
Definition defender_in (w : ClanWar.t) (a : WarAttack.t) : option ClanWarMember.t :=
  WarAttack.defender (ClanWar.get_member w) a.

(** The orders of the attacks that a member received. *)
Definition defense_orders (d : ClanWarMember.t) : list Z :=
  map WarAttack.order (ClanWarMember.defenses d).

(** [a] is the first attack of [l] on the defender [defender_tag]. *)
Definition first_attack_on (defender_tag : string) (l : list WarAttack.t)
    (a : WarAttack.t) : Prop :=
  exists earlier later,
    l = earlier ++ a :: later
    /\ WarAttack.defender_tag a = defender_tag
    /\ Forall (fun b => WarAttack.defender_tag b <> defender_tag) earlier.

(** No attack of [l] is on the defender [defender_tag]. *)
Definition no_attack_on (defender_tag : string) (l : list WarAttack.t) : Prop :=
  Forall (fun b => WarAttack.defender_tag b <> defender_tag) l.

(** The first war tag of the round is not the placeholder. *)
Definition round_started (war_tags : list string) : bool :=
  match war_tags with
  | first :: _ => negb (String.eqb first "#0")
  | [] => false
  end.

(** [declared] lists the war tags of the rounds of the payload, round by
    round. *)
Definition declares (rounds : list ClanWarLeagueGroup.round_data)
    (declared : list (list string)) : Prop :=
  map ClanWarLeagueGroup.warTags rounds = map Some declared.

(** The clan payloads of the data, [data.get("clans", [])]. *)
Definition payloads {ClanData : Type} (d : ClanWarLeagueGroup.data ClanData)
  : list ClanData :=
  match ClanWarLeagueGroup.data_clans d with
  | Some cs => cs
  | None => []
  end.

(** The access number [n] (from 0) in a row of accesses to [clans]: the
    list it returns, and the group and the store it leaves. *)
Fixpoint nth_access {ClanData Clan : Type} (new_clan : ClanData -> Clan) (n : nat)
    (g : ClanWarLeagueGroup.t ClanData Clan) (s : ClanWarLeagueGroup.store ClanData)
  : ClanWarLeagueGroup.pylist Clan * ClanWarLeagueGroup.t ClanData Clan
    * ClanWarLeagueGroup.store ClanData :=
  match n with
  | O => ClanWarLeagueGroup.clans new_clan g s
  | S k =>
      let '(_, g1, s1) := ClanWarLeagueGroup.clans new_clan g s in
      nth_access new_clan k g1 s1
  end.

(** The same war seen from the other side: home and opponent exchanged. *)
Definition other_side (w : ClanWar.t) : ClanWar.t :=
  {| ClanWar.state := ClanWar.state w;
     ClanWar.preparation_start_time := ClanWar.preparation_start_time w;
     ClanWar.start_time := ClanWar.start_time w;
     ClanWar.end_time := ClanWar.end_time w;
     ClanWar.team_size := ClanWar.team_size w;
     ClanWar.war_tag := ClanWar.war_tag w;
     ClanWar.clan := ClanWar.opponent w;
     ClanWar.opponent := ClanWar.clan w |}.

(** Neither destruction is greater than or equal to the other (one of
    them is not a number). *)
Definition destruction_unordered (w : ClanWar.t) : Prop :=
  PrimFloat.ltb (WarClan.destruction (ClanWar.clan w))
                (WarClan.destruction (ClanWar.opponent w)) = false
  /\ PrimFloat.ltb (WarClan.destruction (ClanWar.opponent w))
                   (WarClan.destruction (ClanWar.clan w)) = false
  /\ PrimFloat.eqb (WarClan.destruction (ClanWar.clan w))
                   (WarClan.destruction (ClanWar.opponent w)) = false.

(** The preparation windows shorter than a day, in seconds. *)
Definition windows_below_a_day : list Z :=
  [900; 1800; 3600; 7200; 14400; 21600; 28800; 43200; 57600; 72000].

(** All attacks of the war, the home side's before the opponent side's. *)
Definition recorded_attacks (w : ClanWar.t) : list WarAttack.t :=
  WarClan.attacks (ClanWar.clan w) ++ WarClan.attacks (ClanWar.opponent w).

(** All members of the war, the home side's before the opponent side's. *)
Definition roster (w : ClanWar.t) : list ClanWarMember.t :=
  WarClan.members (ClanWar.clan w) ++ WarClan.members (ClanWar.opponent w).

(** [x] is listed before [y] by the key of the members view: [x] is
    flagged as opponent and [y] is not, or they carry the same flag and
    the map position of [x] is not greater. *)
Definition listed_before (x y : ClanWarMember.t) : Prop :=
  (ClanWarMember.is_opponent x = true /\ ClanWarMember.is_opponent y = false)
  \/ (ClanWarMember.is_opponent x = ClanWarMember.is_opponent y
      /\ ClanWarMember.map_position x <= ClanWarMember.map_position y).

(* ================================================================== *)
(** * ClanWar.status *)
(* ================================================================== *)

(** Two floats that compare equal are not strictly ordered. *)
Lemma float_eqb_not_ltb (x y : float) :
  PrimFloat.eqb x y = true -> PrimFloat.ltb y x = false.
Proof.
  rewrite eqb_spec, ltb_spec. unfold SFeqb, SFltb.
  destruct (Prim2SF x) as [s1 | s1 | | s1 m1 e1];
    destruct (Prim2SF y) as [s2 | s2 | | s2 m2 e2]; simpl; try congruence;
    try (destruct s1; try destruct s2; simpl; congruence).
  destruct s1, s2; simpl; try congruence;
    rewrite (Z.compare_antisym e1 e2);
    destruct (e1 ?= e2) eqn:E; simpl; try congruence;
    rewrite !Pos.compare_cont_spec; simpl;
    rewrite (Pos.compare_antisym m1 m2);
    destruct (m1 ?= m2)%positive; simpl; congruence.
Qed.

Lemma home_ahead_not_level (w : ClanWar.t) : home_ahead w -> ~ level w.
Proof.
  intros [Hgt | [_ Hlt]] [Heq Hd].
  - lia.
  - apply float_eqb_not_ltb in Hd. congruence.
Qed.

(** Splits on the four tests of the two-level comparison. *)
Ltac split_score w :=
  unfold home_ahead, level;
  destruct (Z.gtb_spec (WarClan.stars (ClanWar.clan w))
                       (WarClan.stars (ClanWar.opponent w)));
  destruct (Z.eqb_spec (WarClan.stars (ClanWar.clan w))
                       (WarClan.stars (ClanWar.opponent w)));
  destruct (PrimFloat.ltb (WarClan.destruction (ClanWar.opponent w))
                          (WarClan.destruction (ClanWar.clan w))) eqn:?;
  destruct (PrimFloat.eqb (WarClan.destruction (ClanWar.clan w))
                          (WarClan.destruction (ClanWar.opponent w))) eqn:?.

Lemma status_inWar (w : ClanWar.t) :
  ClanWar.state w = Some "inWar" ->
  (home_ahead w -> ClanWar.status w = "winning")
  /\ (level w -> ClanWar.status w = "tied")
  /\ (~ home_ahead w -> ~ level w -> ClanWar.status w = "losing").
Proof.
  intros Hst. pose proof (home_ahead_not_level w) as Hex.
  unfold ClanWar.status. rewrite Hst. simpl.
  revert Hex. split_score w; intros Hex; repeat split; intros; try reflexivity;
    solve [ exfalso; intuition (try lia; try congruence) ].
Qed.

Lemma status_warEnded (w : ClanWar.t) :
  ClanWar.state w = Some "warEnded" ->
  (home_ahead w -> ClanWar.status w = "won")
  /\ (level w -> ClanWar.status w = "tie")
  /\ (~ home_ahead w -> ~ level w -> ClanWar.status w = "lost").
Proof.
  intros Hst. pose proof (home_ahead_not_level w) as Hex.
  unfold ClanWar.status. rewrite Hst. simpl.
  revert Hex. split_score w; intros Hex; repeat split; intros; try reflexivity;
    solve [ exfalso; intuition (try lia; try congruence) ].
Qed.

Lemma status_other_state (w : ClanWar.t) :
  ClanWar.state w <> Some "inWar" ->
  ClanWar.state w <> Some "warEnded" ->
  ClanWar.status w = EmptyString.
Proof.
  intros H1 H2. unfold ClanWar.status.
  destruct (ClanWar.state w) as [s |]; simpl; [| reflexivity].
  destruct (String.eqb_spec s "inWar") as [-> | _]; [congruence |].
  destruct (String.eqb_spec s "warEnded") as [-> | _]; [congruence |].
  reflexivity.
Qed.

(** C1. In state "inWar" the status is "winning" when the home side is
    ahead (more stars, or as many stars and a strictly greater
    destruction), "tied" when stars and destruction are both equal, and
    "losing" in every remaining case; in state "warEnded" it is "won",
    "tie" and "lost" by the same comparison; for every other state it is
    the empty string. *)
Theorem status_two_level_comparison (w : ClanWar.t) :
  (ClanWar.state w = Some "inWar" ->
     (home_ahead w -> ClanWar.status w = "winning")
     /\ (level w -> ClanWar.status w = "tied")
     /\ (~ home_ahead w -> ~ level w -> ClanWar.status w = "losing"))
  /\ (ClanWar.state w = Some "warEnded" ->
     (home_ahead w -> ClanWar.status w = "won")
     /\ (level w -> ClanWar.status w = "tie")
     /\ (~ home_ahead w -> ~ level w -> ClanWar.status w = "lost"))
  /\ (ClanWar.state w <> Some "inWar" ->
      ClanWar.state w <> Some "warEnded" ->
      ClanWar.status w = EmptyString).
Proof.
  split; [| split].
  - apply status_inWar.
  - apply status_warEnded.
  - apply status_other_state.
Qed.

(** The spec's sample wars, through the theorem: stars 3 against 2 while
    in war, and level scores once the war has ended. *)
Lemma status_two_level_comparison_witness :
  ClanWar.status (Sample.scored (Some "inWar") 3 50%float 2 80%float) = "winning"
  /\ ClanWar.status (Sample.scored (Some "warEnded") 7 50%float 7 50%float) = "tie"
  /\ ClanWar.status (Sample.scored (Some "preparation") 3 50%float 2 80%float)
     = EmptyString.
Proof.
  split; [| split].
  - apply (status_two_level_comparison
             (Sample.scored (Some "inWar") 3 50%float 2 80%float)).
    + reflexivity.
    + left. simpl. lia.
  - apply (status_two_level_comparison
             (Sample.scored (Some "warEnded") 7 50%float 7 50%float)).
    + reflexivity.
    + split; reflexivity.
  - apply (status_two_level_comparison
             (Sample.scored (Some "preparation") 3 50%float 2 80%float));
      simpl; discriminate.
Defined.

(** The remaining sample values of the spec, by evaluation. *)
Example status_samples :
  ClanWar.status (Sample.scored (Some "inWar") 4 50.0%float 4 49.9%float) = "winning"
  /\ ClanWar.status (Sample.scored (Some "inWar") 4 50.0%float 4 50.0%float) = "tied"
  /\ ClanWar.status (Sample.scored (Some "inWar") 4 49.9%float 4 50.0%float) = "losing"
  /\ ClanWar.status (Sample.scored (Some "warEnded") 3 10%float 2 90%float) = "won"
  /\ ClanWar.status (Sample.scored (Some "warEnded") 4 50.0%float 4 49.9%float) = "won"
  /\ ClanWar.status (Sample.scored (Some "warEnded") 2 90%float 3 10%float) = "lost"
  /\ ClanWar.status (Sample.scored None 3 10%float 2 90%float) = EmptyString.
Proof. repeat split; reflexivity. Qed.

(* ================================================================== *)
(** * ClanWar.type and ClanWar.is_cwl *)
(* ================================================================== *)

Lemma truthy_str_iff (x : option string) :
  Py.truthy_str x = true <-> exists s, x = Some s /\ s <> EmptyString.
Proof.
  split.
  - destruct x as [[| c s] |]; simpl; try discriminate.
    intros _. exists (String c s). split; [reflexivity | discriminate].
  - intros [s [-> Hs]]. destruct s; [congruence | reflexivity].
Qed.

Lemma type_cwl (w : ClanWar.t) :
  Py.truthy_str (ClanWar.war_tag w) = true -> ClanWar.type w = Py.Ok (Some "cwl").
Proof. intros H. unfold ClanWar.type. rewrite H. reflexivity. Qed.

Lemma type_unknown (w : ClanWar.t) :
  Py.truthy_str (ClanWar.war_tag w) = false ->
  ClanWar.start_time w = None ->
  ClanWar.type w = Py.Ok None.
Proof. intros H1 H2. unfold ClanWar.type. rewrite H1, H2. reflexivity. Qed.

Lemma type_timed (w : ClanWar.t) (st pt : Timestamp.t) :
  Py.truthy_str (ClanWar.war_tag w) = false ->
  ClanWar.start_time w = Some st ->
  ClanWar.preparation_start_time w = Some pt ->
  ClanWar.type w =
  Py.Ok (Some (if ClanWar.in_prep_list ((Timestamp.time st - Timestamp.time pt) mod 86400)
               then "friendly" else "random")).
Proof.
  intros H1 H2 H3. unfold ClanWar.type. rewrite H1, H2, H3. simpl.
  destruct (ClanWar.in_prep_list _); reflexivity.
Qed.

Lemma type_no_preparation (w : ClanWar.t) (st : Timestamp.t) :
  Py.truthy_str (ClanWar.war_tag w) = false ->
  ClanWar.start_time w = Some st ->
  ClanWar.preparation_start_time w = None ->
  ClanWar.type w = Py.Raise Py.AttributeError.
Proof. intros H1 H2 H3. unfold ClanWar.type. rewrite H1, H2, H3. reflexivity. Qed.

(** Without a true tag, the type is never "cwl". *)
Lemma type_not_cwl (w : ClanWar.t) :
  Py.truthy_str (ClanWar.war_tag w) = false ->
  ClanWar.type w <> Py.Ok (Some "cwl").
Proof.
  intros H. unfold ClanWar.type. rewrite H.
  destruct (ClanWar.start_time w) as [st |]; simpl; [| discriminate].
  destruct (ClanWar.preparation_start_time w) as [pt |]; [| discriminate].
  destruct (ClanWar.in_prep_list _); discriminate.
Qed.

(** With consistent timestamps the property returns. *)
Lemma type_returns (w : ClanWar.t) :
  timestamps_ok w -> exists ty, ClanWar.type w = Py.Ok ty.
Proof.
  unfold timestamps_ok, ClanWar.type. intros Hts.
  destruct (Py.truthy_str (ClanWar.war_tag w)); [eexists; reflexivity |].
  destruct (ClanWar.start_time w) as [st |] eqn:Hst; simpl; [| eexists; reflexivity].
  destruct (ClanWar.preparation_start_time w) as [pt |] eqn:Hpt.
  - destruct (ClanWar.in_prep_list _); eexists; reflexivity.
  - destruct Hts as [H | H]; congruence.
Qed.

(** The [seconds] of a difference stay below one day. *)
Lemma seconds_range (a b : Py.datetime) :
  0 <= Py.seconds (Py.datetime_sub a b) < 86400.
Proof. simpl. apply Z.mod_pos_bound. lia. Qed.

(** A war without tag whose battle starts a whole number of days after the
    preparation is never "friendly": the last entry of [prep_list] cannot
    be met. *)
Lemma type_whole_days_random (days prep : Z) :
  ClanWar.type (Sample.timed None (Some prep) (Some (prep + days * 86400)))
  = Py.Ok (Some "random").
Proof.
  unfold ClanWar.type. simpl.
  replace (prep + days * 86400 - prep) with (days * 86400) by lia.
  rewrite Z.mod_mul by lia. reflexivity.
Qed.

(** C3. The code at the 24-hour window: a war without tag whose battle
    starts exactly 86400 seconds after the preparation is reported
    "random", not "friendly"; the other sample values of the claim are as
    stated (tag present gives "cwl", no tag and no start time gives the
    unknown value, 3600 seconds give "friendly", 12345 seconds give
    "random"), and 25 hours are reported "friendly". *)
Theorem type_24h_window_is_random :
  ClanWar.type (Sample.timed None (Some 1577836800) (Some (1577836800 + 86400)))
  = Py.Ok (Some "random")
  /\ ClanWar.type (Sample.timed (Some "#2ABC") None None) = Py.Ok (Some "cwl")
  /\ ClanWar.type (Sample.timed None None None) = Py.Ok None
  /\ ClanWar.type (Sample.timed None (Some 1577836800) (Some (1577836800 + 3600)))
     = Py.Ok (Some "friendly")
  /\ ClanWar.type (Sample.timed None (Some 1577836800) (Some (1577836800 + 12345)))
     = Py.Ok (Some "random")
  /\ ClanWar.type (Sample.timed None (Some 1577836800) (Some (1577836800 + 90000)))
     = Py.Ok (Some "friendly").
Proof. repeat split; reflexivity. Qed.

(** C10, as the code has it. A war whose tag is the empty string is
    typed as the same war without tag, so its type is never "cwl" and
    [is_cwl] is never true: [is_cwl] returns false when the war has no
    battle start or has a preparation start, and raises [AttributeError],
    as [type] does, when the war has a battle start and no preparation
    start. [is_cwl] returns true exactly when the tag is a non-empty
    string. *)
Theorem empty_tag_is_not_cwl (w : ClanWar.t) :
  (ClanWar.war_tag w = Some EmptyString ->
     ClanWar.type w = ClanWar.type (without_tag w)
     /\ ClanWar.type w <> Py.Ok (Some "cwl")
     /\ ClanWar.is_cwl w <> Py.Ok true
     /\ (timestamps_ok w -> ClanWar.is_cwl w = Py.Ok false)
     /\ (~ timestamps_ok w ->
         ClanWar.type w = Py.Raise Py.AttributeError
         /\ ClanWar.is_cwl w = Py.Raise Py.AttributeError))
  /\ (ClanWar.is_cwl w = Py.Ok true <->
      exists s, ClanWar.war_tag w = Some s /\ s <> EmptyString).
Proof.
  assert (Hnever : Py.truthy_str (ClanWar.war_tag w) = false ->
                   ClanWar.is_cwl w <> Py.Ok true).
  { intros Hf H. pose proof (type_not_cwl w Hf) as Hn.
    unfold ClanWar.is_cwl in H.
    destruct (ClanWar.type w) as [[s |] | e]; simpl in H; try discriminate.
    destruct (String.eqb_spec s "cwl") as [Hs | _]; [| discriminate].
    apply Hn. rewrite Hs. reflexivity. }
  split.
  - intros Htag.
    assert (Hf : Py.truthy_str (ClanWar.war_tag w) = false) by (rewrite Htag; reflexivity).
    split; [| split; [| split; [| split]]].
    + unfold ClanWar.type. rewrite Hf. reflexivity.
    + apply type_not_cwl, Hf.
    + apply Hnever, Hf.
    + intros Hts. pose proof (type_not_cwl w Hf) as Hn.
      destruct (type_returns w Hts) as [ty Hty].
      unfold ClanWar.is_cwl. rewrite Hty in *. simpl.
      destruct ty as [s |]; simpl; [| reflexivity].
      destruct (String.eqb_spec s "cwl") as [Hs | _]; [| reflexivity].
      exfalso. apply Hn. rewrite Hs. reflexivity.
    + unfold timestamps_ok. intros Hts.
      destruct (ClanWar.start_time w) as [st |] eqn:Hst;
        [| exfalso; apply Hts; left; reflexivity].
      destruct (ClanWar.preparation_start_time w) as [pt |] eqn:Hpt;
        [exfalso; apply Hts; right; discriminate |].
      assert (Hty : ClanWar.type w = Py.Raise Py.AttributeError)
        by (apply (type_no_preparation w st Hf Hst Hpt)).
      split; [exact Hty |]. unfold ClanWar.is_cwl. rewrite Hty. reflexivity.
  - rewrite <- truthy_str_iff. split.
    + intros H. destruct (Py.truthy_str (ClanWar.war_tag w)) eqn:Hf; [reflexivity |].
      exfalso. apply (Hnever eq_refl H).
    + intros H. unfold ClanWar.is_cwl. rewrite (type_cwl w H). reflexivity.
Qed.

(** A war with the empty tag and a one-hour preparation: "friendly", and
    not a league war. *)
Lemma empty_tag_is_not_cwl_witness :
  ClanWar.type (Sample.timed (Some EmptyString) (Some 0) (Some 3600))
  = Py.Ok (Some "friendly")
  /\ ClanWar.is_cwl (Sample.timed (Some EmptyString) (Some 0) (Some 3600)) = Py.Ok false.
Proof.
  destruct (empty_tag_is_not_cwl
              (Sample.timed (Some EmptyString) (Some 0) (Some 3600))) as [H _].
  destruct (H eq_refl) as [Hty [_ [_ [Hcwl _]]]].
  split.
  - rewrite Hty. reflexivity.
  - apply Hcwl. right. discriminate.
Defined.

(** C10, as stated, fails on a war with the empty tag, a battle start and
    no preparation start: [is_cwl] is not false there, it raises. *)
Lemma empty_tag_is_cwl_raises :
  ClanWar.war_tag (Sample.timed (Some EmptyString) None (Some 0)) = Some EmptyString
  /\ ClanWar.is_cwl (Sample.timed (Some EmptyString) None (Some 0))
     = Py.Raise Py.AttributeError
  /\ ClanWar.is_cwl (Sample.timed (Some EmptyString) None (Some 0)) <> Py.Ok false.
Proof. repeat split. discriminate. Qed.

(* ================================================================== *)
(** * Facts about [sorted] *)
(* ================================================================== *)

Section SortedFacts.
Context {A K : Type}.
Variable lt : K -> K -> bool.
Variable key : A -> K.
Variable reverse : bool.

Local Abbreviation insert := (Py.insert lt key reverse).
Local Abbreviation sorted := (Py.sorted lt key reverse).
Local Abbreviation stays_before := (Py.stays_before lt key reverse).

Lemma insert_perm (x : A) (l : list A) : Permutation (insert x l) (x :: l).
Proof.
  induction l as [| y r IH]; simpl.
  - apply Permutation_refl.
  - destruct (stays_before x y).
    + apply Permutation_refl.
    + apply Permutation_trans with (y :: x :: r).
      * apply perm_skip, IH.
      * apply perm_swap.
Qed.

Lemma sorted_perm (l : list A) : Permutation (sorted l) l.
Proof.
  induction l as [| x r IH]; simpl.
  - apply perm_nil.
  - apply Permutation_trans with (x :: sorted r).
    + apply insert_perm.
    + apply perm_skip, IH.
Qed.

Lemma sorted_length (l : list A) : List.length (sorted l) = List.length l.
Proof. apply Permutation_length, sorted_perm. Qed.

Lemma sorted_In (x : A) (l : list A) : In x (sorted l) <-> In x l.
Proof.
  split; apply Permutation_in;
    [apply sorted_perm | apply Permutation_sym, sorted_perm].
Qed.

(** [<] on the keys is a strict weak order. *)
Hypothesis lt_asym : forall a b, lt a b = true -> lt b a = false.
Hypothesis lt_negtrans :
  forall a b c, lt a b = false -> lt b c = false -> lt a c = false.

Lemma stays_before_total (x y : A) :
  stays_before x y = false -> stays_before y x = true.
Proof.
  unfold Py.stays_before. destruct reverse; intros H;
    apply negb_false_iff in H; apply lt_asym in H; rewrite H; reflexivity.
Qed.

Lemma stays_before_trans (x y z : A) :
  stays_before x y = true -> stays_before y z = true -> stays_before x z = true.
Proof.
  unfold Py.stays_before. destruct reverse; intros H1 H2;
    apply negb_true_iff in H1; apply negb_true_iff in H2;
    apply negb_true_iff; eauto.
Qed.

Lemma insert_sorted (x : A) (l : list A) :
  StronglySorted (fun a b => stays_before a b = true) l ->
  StronglySorted (fun a b => stays_before a b = true) (insert x l).
Proof.
  induction 1 as [| y r Hr IH Hy]; simpl.
  - constructor; constructor.
  - destruct (stays_before x y) eqn:E.
    + constructor; [constructor; assumption |].
      constructor; [assumption |].
      rewrite Forall_forall in *. intros z Hz.
      apply stays_before_trans with y; auto.
    + constructor; [assumption |].
      apply Permutation_Forall with (x :: r).
      * apply Permutation_sym, insert_perm.
      * constructor; [apply stays_before_total, E | assumption].
Qed.

Lemma sorted_sorted (l : list A) :
  StronglySorted (fun a b => stays_before a b = true) (sorted l).
Proof.
  induction l as [| x r IH]; simpl.
  - constructor.
  - apply insert_sorted, IH.
Qed.
End SortedFacts.

Lemma StronglySorted_weaken {A : Type} (R S : A -> A -> Prop) (l : list A) :
  (forall x y, In x l -> In y l -> R x y -> S x y) ->
  StronglySorted R l -> StronglySorted S l.
Proof.
  intros HRS H. induction H as [| x r Hr IH Hx].
  - constructor.
  - constructor.
    + apply IH. intros a b Ha Hb. apply HRS; right; assumption.
    + rewrite Forall_forall in *. intros y Hy.
      apply HRS; [left; reflexivity | right; assumption | auto].
Qed.

(** In a list without two elements of the same key, a sorted list is
    strictly sorted. *)
Lemma StronglySorted_strict {A : Type} (f : A -> Z) (l : list A) :
  NoDup (map f l) ->
  StronglySorted (fun a b => f a >= f b) l ->
  StronglySorted (fun a b => f a > f b) l.
Proof.
  intros Hnd H. induction H as [| x r Hr IH Hx].
  - constructor.
  - simpl in Hnd. inversion Hnd as [| ? ? Hnotin Hnd']; subst.
    constructor; [apply IH, Hnd' |].
    rewrite Forall_forall in *. intros y Hy.
    specialize (Hx y Hy).
    assert (f x <> f y).
    { intros Heq. apply Hnotin. rewrite Heq. apply in_map, Hy. }
    lia.
Qed.

(* ================================================================== *)
(** * ClanWar.attacks *)
(* ================================================================== *)

Lemma attacks_perm (w : ClanWar.t) :
  Permutation (ClanWar.attacks w)
    (WarClan.attacks (ClanWar.clan w) ++ WarClan.attacks (ClanWar.opponent w)).
Proof. apply sorted_perm. Qed.

Lemma attacks_descending (w : ClanWar.t) :
  StronglySorted (fun a b => WarAttack.order a >= WarAttack.order b) (ClanWar.attacks w).
Proof.
  unfold ClanWar.attacks.
  eapply StronglySorted_weaken; [| apply sorted_sorted].
  - intros x y _ _. unfold Py.stays_before. intros H.
    apply negb_true_iff, Z.ltb_ge in H. lia.
  - intros a b H. apply Z.ltb_lt in H. apply Z.ltb_ge. lia.
  - intros a b c H1 H2. apply Z.ltb_ge in H1, H2. apply Z.ltb_ge. lia.
Qed.

(** C5. When the orders are unique across both sides, the attacks of the
    war are sorted strictly descending by order, and there are as many as
    the home side's attacks plus the opponent side's attacks. *)
Theorem attacks_strictly_descending (w : ClanWar.t) :
  unique_orders w ->
  StronglySorted (fun a b => WarAttack.order a > WarAttack.order b) (ClanWar.attacks w)
  /\ List.length (ClanWar.attacks w)
     = (List.length (WarClan.attacks (ClanWar.clan w))
        + List.length (WarClan.attacks (ClanWar.opponent w)))%nat.
Proof.
  intros Hnd. split.
  - apply StronglySorted_strict; [| apply attacks_descending].
    apply Permutation_NoDup with (2 := Hnd).
    apply Permutation_map, Permutation_sym, attacks_perm.
  - rewrite (Permutation_length (attacks_perm w)). apply length_app.
Qed.

(** The sample war: its three attacks, latest first. *)
Lemma attacks_strictly_descending_witness :
  ClanWar.attacks Sample.battle = [Sample.a3; Sample.a2; Sample.a1]
  /\ StronglySorted (fun a b => WarAttack.order a > WarAttack.order b)
       (ClanWar.attacks Sample.battle)
  /\ List.length (ClanWar.attacks Sample.battle) = (2 + 1)%nat.
Proof.
  split; [reflexivity |].
  apply (attacks_strictly_descending Sample.battle).
  unfold unique_orders. simpl.
  repeat constructor; simpl; intuition discriminate.
Defined.

(* ================================================================== *)
(** * ClanWar.members *)
(* ================================================================== *)

(** Sorting on a key [(flag, pos)] lists the elements whose flag is false,
    by [pos], and then those whose flag is true, by [pos]. *)
Section TwoPartKey.
Context {A : Type}.
Variable flag : A -> bool.
Variable pos : A -> Z.

Local Abbreviation key2 := (fun x : A => (flag x, pos x)).
Local Abbreviation insert2 := (Py.insert Py.tuple_lt key2 false).
Local Abbreviation insert1 := (Py.insert Z.ltb pos false).
Local Abbreviation sorted2 := (Py.sorted Py.tuple_lt key2 false).
Local Abbreviation sorted1 := (Py.sorted Z.ltb pos false).

Lemma stays_before_same_flag (x y : A) :
  flag y = flag x ->
  Py.stays_before Py.tuple_lt key2 false x y = Py.stays_before Z.ltb pos false x y.
Proof.
  intros H. unfold Py.stays_before, Py.tuple_lt. simpl.
  rewrite H, Bool.eqb_reflx. reflexivity.
Qed.

Lemma stays_before_lower_flag (x y : A) :
  flag x = false -> flag y = true ->
  Py.stays_before Py.tuple_lt key2 false x y = true.
Proof.
  intros Hx Hy. unfold Py.stays_before, Py.tuple_lt. simpl.
  rewrite Hx, Hy. reflexivity.
Qed.

Lemma stays_before_higher_flag (x y : A) :
  flag x = true -> flag y = false ->
  Py.stays_before Py.tuple_lt key2 false x y = false.
Proof.
  intros Hx Hy. unfold Py.stays_before, Py.tuple_lt. simpl.
  rewrite Hx, Hy. reflexivity.
Qed.

Lemma insert_same_flag (x : A) (l : list A) :
  Forall (fun y => flag y = flag x) l -> insert2 x l = insert1 x l.
Proof.
  induction 1 as [| y r Hy Hr IH]; cbn [Py.insert]; [reflexivity |].
  rewrite (stays_before_same_flag x y Hy), IH. reflexivity.
Qed.

Lemma insert_low (x : A) (lo hi : list A) :
  flag x = false ->
  Forall (fun y => flag y = false) lo ->
  Forall (fun y => flag y = true) hi ->
  insert2 x (lo ++ hi) = insert1 x lo ++ hi.
Proof.
  intros Hx Hlo Hhi. induction Hlo as [| y r Hy Hr IH]; cbn [Py.insert app].
  - destruct Hhi as [| z hi' Hz _]; cbn [Py.insert]; [reflexivity |].
    rewrite stays_before_lower_flag by assumption. reflexivity.
  - rewrite stays_before_same_flag by congruence.
    destruct (Py.stays_before Z.ltb pos false x y); [reflexivity |].
    rewrite IH. reflexivity.
Qed.

Lemma insert_high (x : A) (lo hi : list A) :
  flag x = true ->
  Forall (fun y => flag y = false) lo ->
  Forall (fun y => flag y = true) hi ->
  insert2 x (lo ++ hi) = lo ++ insert1 x hi.
Proof.
  intros Hx Hlo Hhi. induction Hlo as [| y r Hy Hr IH]; cbn [Py.insert app].
  - apply insert_same_flag.
    apply Forall_impl with (2 := Hhi). intros; congruence.
  - rewrite stays_before_higher_flag by assumption.
    rewrite IH. reflexivity.
Qed.

Lemma sorted_two_part (l : list A) :
  sorted2 l
  = sorted1 (filter (fun x => negb (flag x)) l) ++ sorted1 (filter flag l).
Proof.
  induction l as [| x r IH]; [reflexivity |].
  cbn [Py.sorted fold_right filter].
  change (fold_right (Py.insert Py.tuple_lt key2 false) [] r) with (sorted2 r).
  rewrite IH.
  assert (Hlo : Forall (fun y => flag y = false)
                  (sorted1 (filter (fun x => negb (flag x)) r))).
  { apply Forall_forall. intros y Hy. apply sorted_In, filter_In in Hy.
    apply negb_true_iff, Hy. }
  assert (Hhi : Forall (fun y => flag y = true) (sorted1 (filter flag r))).
  { apply Forall_forall. intros y Hy. apply sorted_In, filter_In in Hy. apply Hy. }
  destruct (flag x) eqn:Hx; cbn [negb Py.sorted fold_right].
  - apply insert_high; assumption.
  - apply insert_low; assumption.
Qed.
End TwoPartKey.

Lemma filter_all {A : Type} (f : A -> bool) (l : list A) :
  Forall (fun x => f x = true) l -> filter f l = l.
Proof.
  induction 1 as [| x r Hx Hr IH]; simpl; [reflexivity |].
  rewrite Hx, IH. reflexivity.
Qed.

Lemma filter_none {A : Type} (f : A -> bool) (l : list A) :
  Forall (fun x => f x = false) l -> filter f l = [].
Proof.
  induction 1 as [| x r Hx Hr IH]; simpl; [reflexivity |].
  rewrite Hx, IH. reflexivity.
Qed.

Lemma sorted_by_position_ascending (l : list ClanWarMember.t) :
  ascending_positions (Py.sorted Z.ltb ClanWarMember.map_position false l).
Proof.
  unfold ascending_positions.
  eapply StronglySorted_weaken; [| apply sorted_sorted].
  - intros x y _ _. unfold Py.stays_before. intros H.
    apply negb_true_iff, Z.ltb_ge in H. exact H.
  - intros a b H. apply Z.ltb_lt in H. apply Z.ltb_ge. lia.
  - intros a b c H1 H2. apply Z.ltb_ge in H1, H2. apply Z.ltb_ge. lia.
Qed.

(** The view is the opponent side sorted by position, followed by the
    home side sorted by position. *)
Lemma members_by_side (w : ClanWar.t) :
  sides_marked w ->
  ClanWar.members w
  = Py.sorted Z.ltb ClanWarMember.map_position false
      (WarClan.members (ClanWar.opponent w))
    ++ Py.sorted Z.ltb ClanWarMember.map_position false
         (WarClan.members (ClanWar.clan w)).
Proof.
  intros [Hhome Haway]. unfold ClanWar.members.
  rewrite (sorted_two_part (fun x => negb (ClanWarMember.is_opponent x))
             ClanWarMember.map_position).
  rewrite !filter_app.
  rewrite (filter_none _ (WarClan.members (ClanWar.clan w))),
          (filter_all _ (WarClan.members (ClanWar.opponent w))),
          (filter_all _ (WarClan.members (ClanWar.clan w))),
          (filter_none _ (WarClan.members (ClanWar.opponent w))).
  - rewrite app_nil_r. reflexivity.
  - apply Forall_impl with (2 := Haway). intros m Hm. rewrite Hm. reflexivity.
  - apply Forall_impl with (2 := Hhome). intros m Hm. rewrite Hm. reflexivity.
  - apply Forall_impl with (2 := Haway). intros m Hm. rewrite Hm. reflexivity.
  - apply Forall_impl with (2 := Hhome). intros m Hm. rewrite Hm. reflexivity.
Qed.

(** C2, as the code has it. When [is_opponent] tells the sides apart, the
    members view lists all opponent-side members before all home-side
    members, and within each side the members are in ascending order of
    map position. *)
Theorem members_opponent_side_first (w : ClanWar.t) :
  sides_marked w ->
  listed_side_by_side w (ClanWar.opponent w) (ClanWar.clan w).
Proof.
  intros Hw.
  exists (Py.sorted Z.ltb ClanWarMember.map_position false
            (WarClan.members (ClanWar.opponent w))).
  exists (Py.sorted Z.ltb ClanWarMember.map_position false
            (WarClan.members (ClanWar.clan w))).
  split; [apply members_by_side, Hw |].
  repeat split; try apply sorted_perm; apply sorted_by_position_ascending.
Qed.

(** The sample war: both opponents, then both home members. *)
Lemma members_opponent_side_first_witness :
  ClanWar.members Sample.battle = [Sample.o1; Sample.o2; Sample.h1; Sample.h2]
  /\ listed_side_by_side Sample.battle
       (ClanWar.opponent Sample.battle) (ClanWar.clan Sample.battle).
Proof.
  split; [reflexivity |].
  apply (members_opponent_side_first Sample.battle).
  split; simpl; repeat constructor.
Defined.

(** C2, as stated, fails on the sample war: its members view does not
    list the home side's members before the opponent side's members. *)
Lemma members_home_side_first_fails :
  ~ listed_side_by_side Sample.battle
      (ClanWar.clan Sample.battle) (ClanWar.opponent Sample.battle).
Proof.
  intros (l1 & l2 & Heq & P1 & _).
  pose proof (Permutation_length P1) as Hlen.
  change (ClanWar.members Sample.battle)
    with [Sample.o1; Sample.o2; Sample.h1; Sample.h2] in Heq.
  destruct l1 as [| a [| b [| c l1]]]; simpl in Hlen; try discriminate.
  simpl in Heq. injection Heq as Ha Hb Hl2. subst a b.
  assert (Hin : In Sample.o1 (WarClan.members (ClanWar.clan Sample.battle))).
  { apply Permutation_in with (1 := P1). left. reflexivity. }
  simpl in Hin. destruct Hin as [H | [H | []]]; discriminate H.
Qed.

(* ================================================================== *)
(** * WarAttack.is_fresh_attack *)
(* ================================================================== *)

Lemma fold_left_min_le (l : list Z) (x : Z) :
  fold_left Z.min l x <= x /\ forall y, In y l -> fold_left Z.min l x <= y.
Proof.
  revert x. induction l as [| z r IH]; intros x; simpl.
  - split; [lia | intros y []].
  - destruct (IH (Z.min x z)) as [H1 H2]. split; [lia |].
    intros y [<- | Hy]; [lia | apply H2, Hy].
Qed.

Lemma fold_left_min_in (l : list Z) (x : Z) :
  fold_left Z.min l x = x \/ In (fold_left Z.min l x) l.
Proof.
  revert x. induction l as [| z r IH]; intros x; simpl.
  - left. reflexivity.
  - destruct (IH (Z.min x z)) as [H | H].
    + rewrite H. destruct (Z.min_spec x z) as [[_ ->] | [_ ->]]; auto.
    + right. right. exact H.
Qed.

(** [min] returns on a non-empty list, and returns its minimum. *)
Lemma min_is_minimum (l : list Z) :
  l <> [] -> exists m, Py.min l = Py.Ok m /\ is_minimum m l.
Proof.
  destruct l as [| x r]; [congruence | intros _].
  exists (fold_left Z.min r x). split; [reflexivity |]. split.
  - destruct (fold_left_min_in r x) as [-> | H]; [left; reflexivity | right; exact H].
  - destruct (fold_left_min_le r x) as [Hx Hr].
    intros y [<- | Hy]; [exact Hx | apply Hr, Hy].
Qed.

Lemma is_minimum_unique (m m' : Z) (l : list Z) :
  is_minimum m l -> is_minimum m' l -> m = m'.
Proof. intros [H1 H2] [H1' H2']. specialize (H2 _ H1'). specialize (H2' _ H1). lia. Qed.

Lemma NoDup_map_inj {A B : Type} (f : A -> B) (l : list A) (x y : A) :
  NoDup (map f l) -> In x l -> In y l -> f x = f y -> x = y.
Proof.
  induction l as [| z r IH]; simpl; [intros _ [] |].
  intros Hnd Hx Hy Hf. inversion Hnd as [| ? ? Hnotin Hnd']; subst.
  destruct Hx as [-> | Hx], Hy as [-> | Hy]; auto.
  - exfalso. apply Hnotin. rewrite Hf. apply in_map, Hy.
  - exfalso. apply Hnotin. rewrite <- Hf. apply in_map, Hx.
Qed.

Lemma is_fresh_attack_single (w : ClanWar.t) (a : WarAttack.t) (d : ClanWarMember.t) :
  defender_in w a = Some d ->
  List.length (ClanWarMember.defenses d) = 1%nat ->
  ClanWar.is_fresh_attack w a = Py.Ok true.
Proof.
  unfold defender_in, ClanWar.is_fresh_attack, WarAttack.is_fresh_attack.
  intros -> Hlen. unfold Py.len. rewrite Hlen. reflexivity.
Qed.

Lemma is_fresh_attack_several (w : ClanWar.t) (a : WarAttack.t) (d : ClanWarMember.t) :
  defender_in w a = Some d ->
  (2 <= List.length (ClanWarMember.defenses d))%nat ->
  exists m, is_minimum m (defense_orders d)
            /\ ClanWar.is_fresh_attack w a = Py.Ok (WarAttack.order a =? m).
Proof.
  unfold defender_in, ClanWar.is_fresh_attack, WarAttack.is_fresh_attack.
  intros -> Hlen.
  destruct (min_is_minimum (defense_orders d)) as [m [Hm Hmin]].
  { unfold defense_orders. destruct (ClanWarMember.defenses d); simpl in *; [lia | discriminate]. }
  exists m. split; [exact Hmin |].
  unfold Py.len. destruct (Z.eqb_spec (Z.of_nat (List.length (ClanWarMember.defenses d))) 1); [lia |].
  unfold defense_orders in Hm. rewrite Hm. simpl. rewrite Z.eqb_sym. reflexivity.
Qed.

(** C4. An attack whose defender resolves and has exactly one recorded
    defense is fresh. When the defender has several recorded defenses,
    the attack is fresh iff its order equals the minimum order of these
    defenses; and when their orders are unique and each of them resolves
    to that defender, exactly one of them is fresh. *)
Theorem is_fresh_attack_first_on_defender (w : ClanWar.t) :
  (forall a d,
      defender_in w a = Some d ->
      List.length (ClanWarMember.defenses d) = 1%nat ->
      ClanWar.is_fresh_attack w a = Py.Ok true)
  /\ (forall a d,
      defender_in w a = Some d ->
      (2 <= List.length (ClanWarMember.defenses d))%nat ->
      exists m, is_minimum m (defense_orders d)
                /\ ClanWar.is_fresh_attack w a = Py.Ok (WarAttack.order a =? m))
  /\ (forall d,
      (2 <= List.length (ClanWarMember.defenses d))%nat ->
      NoDup (defense_orders d) ->
      (forall a, In a (ClanWarMember.defenses d) -> defender_in w a = Some d) ->
      exists first,
        In first (ClanWarMember.defenses d)
        /\ forall a, In a (ClanWarMember.defenses d) ->
                     (ClanWar.is_fresh_attack w a = Py.Ok true <-> a = first)).
Proof.
  split; [| split].
  - apply is_fresh_attack_single.
  - apply is_fresh_attack_several.
  - intros d Hlen Hnd Hres.
    destruct (min_is_minimum (defense_orders d)) as [m [_ Hmin]].
    { unfold defense_orders. destruct (ClanWarMember.defenses d); simpl in *; [lia | discriminate]. }
    destruct Hmin as [Hin Hle].
    unfold defense_orders in Hin. apply in_map_iff in Hin.
    destruct Hin as [first [Hord Hfirst]].
    exists first. split; [exact Hfirst |].
    intros a Ha.
    destruct (is_fresh_attack_several w a d (Hres a Ha) Hlen) as [m' [Hmin' ->]].
    assert (m' = m).
    { apply is_minimum_unique with (defense_orders d); [exact Hmin' |].
      split; [| exact Hle]. rewrite <- Hord. apply in_map, Hfirst. }
    subst m'. split.
    + intros H. injection H as H. apply Z.eqb_eq in H.
      apply (NoDup_map_inj WarAttack.order (ClanWarMember.defenses d)); auto. congruence.
    + intros ->. rewrite Hord, Z.eqb_refl. reflexivity.
Qed.

(** The sample war: the only attack on the first home member is fresh,
    and of the two attacks on the first opponent exactly one is. *)
Lemma is_fresh_attack_first_on_defender_witness :
  ClanWar.is_fresh_attack Sample.battle Sample.a2 = Py.Ok true
  /\ exists first,
       In first (ClanWarMember.defenses Sample.o1)
       /\ forall a, In a (ClanWarMember.defenses Sample.o1) ->
                    (ClanWar.is_fresh_attack Sample.battle a = Py.Ok true <-> a = first).
Proof.
  destruct (is_fresh_attack_first_on_defender Sample.battle) as [Hone [_ Hmany]].
  split.
  - apply (Hone Sample.a2 Sample.h1); reflexivity.
  - apply (Hmany Sample.o1).
    + simpl. lia.
    + unfold defense_orders. simpl. repeat constructor; simpl; intuition discriminate.
    + simpl. intros a [<- | [<- | []]]; reflexivity.
Defined.

(** The sample war, by evaluation: [a1] came first on the first opponent,
    [a3] did not; an attack on an unknown tag cannot resolve its defender,
    and an attack on a member without recorded defense has no minimum. *)
Example is_fresh_attack_samples :
  ClanWar.is_fresh_attack Sample.battle Sample.a1 = Py.Ok true
  /\ ClanWar.is_fresh_attack Sample.battle Sample.a3 = Py.Ok false
  /\ ClanWar.is_fresh_attack Sample.battle (Sample.attack 4 "#H1" "#NOBODY")
     = Py.Raise Py.AttributeError
  /\ ClanWar.is_fresh_attack Sample.battle (Sample.attack 4 "#H1" "#O2")
     = Py.Raise Py.ValueError.
Proof. repeat split; reflexivity. Qed.

(* ================================================================== *)
(** * ClanWar.get_attack *)
(* ================================================================== *)

Lemma get_defender_tag_some (l : list WarAttack.t) (defender_tag : string) (a : WarAttack.t) :
  utils.get String.eqb l WarAttack.defender_tag defender_tag = Some a
  <-> first_attack_on defender_tag l a.
Proof.
  unfold utils.get, first_attack_on. induction l as [| x r IH]; simpl.
  - split; [discriminate |].
    intros (earlier & later & H & _). destruct earlier; discriminate.
  - destruct (String.eqb_spec (WarAttack.defender_tag x) defender_tag) as [Hx | Hx].
    + split.
      * intros H. injection H as <-. exists [], r. repeat split; auto.
      * intros (earlier & later & Hl & Ha & Hearlier).
        destruct earlier as [| y earlier]; simpl in Hl.
        -- injection Hl as -> _. reflexivity.
        -- injection Hl as -> _. inversion Hearlier; subst. contradiction.
    + rewrite IH. split.
      * intros (earlier & later & -> & Ha & Hearlier).
        exists (x :: earlier), later. repeat split; auto.
      * intros (earlier & later & Hl & Ha & Hearlier).
        destruct earlier as [| y earlier]; simpl in Hl.
        -- injection Hl as -> _. contradiction.
        -- injection Hl as -> ->. inversion Hearlier; subst.
           exists earlier, later. repeat split; auto.
Qed.

Lemma get_defender_tag_none (l : list WarAttack.t) (defender_tag : string) :
  utils.get String.eqb l WarAttack.defender_tag defender_tag = None
  <-> no_attack_on defender_tag l.
Proof.
  unfold utils.get, no_attack_on. induction l as [| x r IH]; simpl.
  - split; [constructor | reflexivity].
  - destruct (String.eqb_spec (WarAttack.defender_tag x) defender_tag) as [Hx | Hx].
    + split; [discriminate |]. intros H. inversion H; subst. contradiction.
    + rewrite IH. split.
      * intros H. constructor; assumption.
      * intros H. inversion H; assumption.
Qed.

Lemma get_attack_of_member (w : ClanWar.t) (attacker_tag defender_tag : string)
    (m : ClanWarMember.t) :
  ClanWar.get_member w attacker_tag = Some m ->
  ClanWar.get_attack w attacker_tag defender_tag
  = utils.get String.eqb (ClanWarMember.attacks m) WarAttack.defender_tag defender_tag.
Proof.
  intros Hm. unfold ClanWar.get_attack. rewrite Hm.
  destruct (ClanWarMember.attacks m) as [| a r]; reflexivity.
Qed.

(** C9. [get_attack] always returns, and returns [None] when the attacker
    tag resolves to no member or the resolved attacker has made no
    attack; otherwise it returns the first of the attacker's attacks
    whose defender tag is the given one, and [None] when no attack of the
    attacker is on that defender. *)
Theorem get_attack_first_match (w : ClanWar.t) (attacker_tag defender_tag : string) :
  (ClanWar.get_member w attacker_tag = None ->
     ClanWar.get_attack w attacker_tag defender_tag = None)
  /\ (forall m,
       ClanWar.get_member w attacker_tag = Some m ->
       ClanWarMember.attacks m = [] ->
       ClanWar.get_attack w attacker_tag defender_tag = None)
  /\ (forall m,
       ClanWar.get_member w attacker_tag = Some m ->
       (forall a,
           ClanWar.get_attack w attacker_tag defender_tag = Some a
           <-> first_attack_on defender_tag (ClanWarMember.attacks m) a)
       /\ (ClanWar.get_attack w attacker_tag defender_tag = None
           <-> no_attack_on defender_tag (ClanWarMember.attacks m))).
Proof.
  split; [| split].
  - intros H. unfold ClanWar.get_attack. rewrite H. reflexivity.
  - intros m Hm Hnil. unfold ClanWar.get_attack. rewrite Hm, Hnil. reflexivity.
  - intros m Hm. rewrite (get_attack_of_member w _ _ m Hm). split.
    + intros a. apply get_defender_tag_some.
    + apply get_defender_tag_none.
Qed.

(** The sample war: the second home member's attack on the first
    opponent is found; an unknown attacker, a member without attacks and
    a defender that the attacker did not attack give [None]. *)
Lemma get_attack_first_match_witness :
  ClanWar.get_attack Sample.battle "#H2" "#O1" = Some Sample.a3
  /\ ClanWar.get_attack Sample.battle "#NOBODY" "#O1" = None
  /\ ClanWar.get_attack Sample.battle "#O2" "#H1" = None
  /\ ClanWar.get_attack Sample.battle "#H2" "#O2" = None.
Proof.
  split; [| split; [| split]].
  - destruct (get_attack_first_match Sample.battle "#H2" "#O1") as [_ [_ H]].
    apply (H Sample.h2); [reflexivity |].
    exists [], []. repeat split; constructor.
  - destruct (get_attack_first_match Sample.battle "#NOBODY" "#O1") as [H _].
    apply H. reflexivity.
  - destruct (get_attack_first_match Sample.battle "#O2" "#H1") as [_ [H _]].
    apply (H Sample.o2); reflexivity.
  - destruct (get_attack_first_match Sample.battle "#H2" "#O2") as [_ [_ H]].
    apply (H Sample.h2); [reflexivity |].
    repeat constructor. discriminate.
Defined.

(* ================================================================== *)
(** * ClanWarLeagueGroup._from_data *)
(* ================================================================== *)

Lemma getitem_first {A : Type} (x : A) (l : list A) : Py.getitem (x :: l) 0 = Py.Ok x.
Proof.
  unfold Py.getitem, Py.len. simpl Z.ltb. cbv iota.
  replace (Z.of_nat (List.length (x :: l)) <=? 0) with false.
  - reflexivity.
  - symmetry. apply Z.leb_gt. simpl List.length. lia.
Qed.

Lemma getitem_empty {A : Type} (i : Z) : Py.getitem (@nil A) i = Py.Raise Py.IndexError.
Proof.
  unfold Py.getitem, Py.len. simpl.
  destruct (i <? 0) eqn:E.
  - rewrite Z.add_0_r, E. reflexivity.
  - apply Z.ltb_ge in E. destruct (i <? 0); simpl; [reflexivity |].
    replace (0 <=? i) with true by (symmetry; apply Z.leb_le; lia). reflexivity.
Qed.

Lemma valid_rounds_filter (rounds : list ClanWarLeagueGroup.round_data)
    (valid : list (list string)) :
  ClanWarLeagueGroup.valid_rounds rounds = Py.Ok valid ->
  exists declared,
    declares rounds declared
    /\ Forall (fun war_tags => war_tags <> []) declared
    /\ valid = filter round_started declared.
Proof.
  unfold declares. revert valid. induction rounds as [| n rest IH]; simpl; intros valid H.
  - injection H as <-. exists []. repeat split. constructor.
  - destruct (ClanWarLeagueGroup.warTags n) as [[| first more] |]; cbn [Py.bind] in H.
    + rewrite getitem_empty in H. discriminate.
    + rewrite getitem_first in H. cbn [Py.bind] in H.
      destruct (ClanWarLeagueGroup.valid_rounds rest) as [kept | e]; simpl in H;
        [| discriminate].
      destruct (IH kept eq_refl) as (declared & Hd & Hne & ->).
      injection H as <-.
      exists ((first :: more) :: declared). simpl. rewrite Hd.
      repeat split; [constructor; [discriminate | exact Hne]].
    + discriminate.
Qed.


Section LeagueGroupFacts.
Context {ClanData Clan : Type}.
Variable new_clan : ClanData -> Clan.

Local Abbreviation group := (ClanWarLeagueGroup.t ClanData Clan).


(** C6. In a league group constructed from a payload, the rounds are
    exactly the declared rounds whose first war tag is not "#0", in the
    declared order, and [number_of_rounds] is the number of declared
    rounds, filtered or not. *)
Theorem rounds_filtered_by_first_tag (self g : group)
    (d : ClanWarLeagueGroup.data ClanData) :
  ClanWarLeagueGroup._from_data self d = Py.Ok g ->
  exists rounds declared,
    ClanWarLeagueGroup.data_rounds d = Some rounds
    /\ declares rounds declared
    /\ ClanWarLeagueGroup.rounds g = filter round_started declared
    /\ ClanWarLeagueGroup.number_of_rounds g = Py.len declared.
Proof.
  unfold ClanWarLeagueGroup._from_data. intros H.
  destruct (ClanWarLeagueGroup.data_rounds d) as [rounds |]; simpl in H; [| discriminate].
  destruct (ClanWarLeagueGroup.valid_rounds rounds) as [valid |] eqn:Hv; simpl in H;
    [| discriminate].
  destruct (valid_rounds_filter rounds valid Hv) as (declared & Hd & _ & ->).
  injection H as <-. exists rounds, declared. simpl.
  repeat split; try assumption.
  unfold Py.len. rewrite <- (length_map ClanWarLeagueGroup.warTags), Hd, length_map.
  reflexivity.
Qed.

End LeagueGroupFacts.

(** The spec's sample: of the declared rounds [["#0"], ["#0"],
    ["#ABC", "#DEF"]] only the last one is visible, and they still count
    as three. *)
Lemma rounds_filtered_by_first_tag_witness :
  ClanWarLeagueGroup.rounds
    (fst (Sample.league [["#0"]; ["#0"]; ["#ABC"; "#DEF"]] [])) = [["#ABC"; "#DEF"]]
  /\ ClanWarLeagueGroup.number_of_rounds
       (fst (Sample.league [["#0"]; ["#0"]; ["#ABC"; "#DEF"]] [])) = 3.
Proof.
  destruct (rounds_filtered_by_first_tag
              {| ClanWarLeagueGroup.state := None; ClanWarLeagueGroup.season := None;
                 ClanWarLeagueGroup.rounds := [];
                 ClanWarLeagueGroup.number_of_rounds := 0;
                 ClanWarLeagueGroup._clans :=
                   {| ClanWarLeagueGroup.id := 0; ClanWarLeagueGroup.items := [] |};
                 ClanWarLeagueGroup.__iter_clans := [] |}
              (fst (Sample.league [["#0"]; ["#0"]; ["#ABC"; "#DEF"]] []))
              (Sample.league_data [["#0"]; ["#0"]; ["#ABC"; "#DEF"]] []) eq_refl)
    as (rounds & declared & Hr & Hd & Hrounds & Hn).
  injection Hr as <-. unfold declares in Hd. simpl in Hd.
  destruct declared as [| r1 [| r2 [| r3 [| r4 declared]]]]; try discriminate Hd.
  injection Hd as <- <- <-.
  split; [exact Hrounds | exact Hn].
Defined.

(** Only the first war tag of a round is tested: a round that starts with
    a real tag is kept whatever follows, a round that starts with "#0" is
    dropped whatever follows, and a round without war tags cannot be
    tested at all. *)
Example rounds_first_tag_only :
  ClanWarLeagueGroup.valid_rounds
    [Sample.round ["#ABC"; "#0"]; Sample.round ["#0"; "#DEF"]; Sample.round ["#GHI"]]
  = Py.Ok [["#ABC"; "#0"]; ["#GHI"]]
  /\ ClanWarLeagueGroup.valid_rounds [Sample.round ["#ABC"]; Sample.round []]
     = Py.Raise Py.IndexError.
Proof. split; reflexivity. Qed.

(* ================================================================== *)
(** * ClanWarLeagueGroup.get_wars *)
(* ================================================================== *)

Lemma getitem_out_of_range {A : Type} (l : list A) (i : Z) :
  i < - Py.len l \/ Py.len l <= i -> Py.getitem l i = Py.Raise Py.IndexError.
Proof.
  intros H. unfold Py.getitem.
  assert (Hlen : 0 <= Py.len l) by (unfold Py.len; lia).
  destruct (Z.ltb_spec i 0).
  - destruct (Z.ltb_spec (i + Py.len l) 0); [reflexivity | lia].
  - destruct (Z.ltb_spec i 0); [lia |].
    destruct (Z.leb_spec (Py.len l) i); [reflexivity | lia].
Qed.

Lemma getitem_in_range {A : Type} (l : list A) (i : Z) :
  - Py.len l <= i < Py.len l ->
  exists x, Py.getitem l i = Py.Ok x
            /\ nth_error l (Z.to_nat (if i <? 0 then i + Py.len l else i)) = Some x.
Proof.
  intros H. unfold Py.getitem.
  set (j := if i <? 0 then i + Py.len l else i).
  assert (Hj : 0 <= j < Py.len l) by (subst j; destruct (Z.ltb_spec i 0); lia).
  destruct (Z.ltb_spec j 0); [lia |].
  destruct (Z.leb_spec (Py.len l) j); [lia |]. simpl.
  destruct (nth_error l (Z.to_nat j)) as [x |] eqn:E.
  - exists x. split; reflexivity.
  - apply nth_error_None in E. unfold Py.len in Hj. lia.
Qed.

Section LeagueGroupRounds.
Context {ClanData Clan : Type}.

Local Abbreviation group := (ClanWarLeagueGroup.t ClanData Clan).

(** With one visible round, every index but 1 resolves that round: the
    indices beyond 1 and below -1 are replaced by -1. *)
Lemma get_wars_single_round (g : group) (round : list string) (i : Z) (cache : bool) :
  ClanWarLeagueGroup.rounds g = [round] ->
  i <> 1 ->
  ClanWarLeagueGroup.get_wars g i cache
  = Py.Ok {| LeagueWarIterator.tags := round; LeagueWarIterator.cache := cache |}.
Proof.
  intros Hr Hi1. unfold ClanWarLeagueGroup.get_wars. rewrite Hr.
  change (Py.len [round] =? 1) with true. cbn [andb].
  destruct (Z.gtb_spec (Z.abs i) 1) as [Hi | Hi]; [reflexivity |].
  assert (Hcases : i = -1 \/ i = 0) by lia.
  destruct Hcases as [-> | ->]; reflexivity.
Qed.

(** With one visible round, the index 1 is out of range and is not
    replaced. *)
Lemma get_wars_single_round_index_1 (g : group) (round : list string) (cache : bool) :
  ClanWarLeagueGroup.rounds g = [round] ->
  ClanWarLeagueGroup.get_wars g 1 cache = Py.Raise Py.IndexError.
Proof.
  intros Hr. unfold ClanWarLeagueGroup.get_wars. rewrite Hr. reflexivity.
Qed.

Lemma get_wars_several_rounds (g : group) (i : Z) (cache : bool) :
  (2 <= List.length (ClanWarLeagueGroup.rounds g))%nat ->
  ClanWarLeagueGroup.get_wars g i cache
  = (tags <- Py.getitem (ClanWarLeagueGroup.rounds g) i ;;
     Py.Ok {| LeagueWarIterator.tags := tags; LeagueWarIterator.cache := cache |}).
Proof.
  intros Hlen. unfold ClanWarLeagueGroup.get_wars.
  destruct (Z.eqb_spec (Py.len (ClanWarLeagueGroup.rounds g)) 1) as [H | _];
    [unfold Py.len in H; lia | reflexivity].
Qed.

(** With two rounds or more, an index in range resolves the round it
    denotes: no index is replaced by another. *)
Lemma get_wars_in_range (g : group) (i : Z) (cache : bool) :
  (2 <= List.length (ClanWarLeagueGroup.rounds g))%nat ->
  - Py.len (ClanWarLeagueGroup.rounds g) <= i < Py.len (ClanWarLeagueGroup.rounds g) ->
  exists round,
    ClanWarLeagueGroup.get_wars g i cache
    = Py.Ok {| LeagueWarIterator.tags := round; LeagueWarIterator.cache := cache |}
    /\ nth_error (ClanWarLeagueGroup.rounds g)
         (Z.to_nat (if i <? 0 then i + Py.len (ClanWarLeagueGroup.rounds g) else i))
       = Some round.
Proof.
  intros Hlen Hi. rewrite get_wars_several_rounds by assumption.
  destruct (getitem_in_range _ i Hi) as (round & -> & Hnth).
  exists round. split; [reflexivity | exact Hnth].
Qed.

(** C7. In a league group with exactly one visible round, [get_wars] with
    the default round index -2 does what it does with index -1, and
    resolves that round; in a league group with two visible rounds or
    more, a round index out of the range of the visible rounds raises
    [IndexError]. *)
Theorem get_wars_round_index (g : group) (cache : bool) :
  (forall round,
      ClanWarLeagueGroup.rounds g = [round] ->
      ClanWarLeagueGroup.get_wars g ClanWarLeagueGroup.default_round_index cache
      = ClanWarLeagueGroup.get_wars g (-1) cache
      /\ ClanWarLeagueGroup.get_wars g ClanWarLeagueGroup.default_round_index cache
         = Py.Ok {| LeagueWarIterator.tags := round; LeagueWarIterator.cache := cache |})
  /\ (forall i,
      (2 <= List.length (ClanWarLeagueGroup.rounds g))%nat ->
      i < - Py.len (ClanWarLeagueGroup.rounds g)
      \/ Py.len (ClanWarLeagueGroup.rounds g) <= i ->
      ClanWarLeagueGroup.get_wars g i cache = Py.Raise Py.IndexError).
Proof.
  split.
  - intros round Hr.
    unfold ClanWarLeagueGroup.default_round_index.
    rewrite (get_wars_single_round g round (-2) cache Hr) by discriminate.
    rewrite (get_wars_single_round g round (-1) cache Hr) by discriminate.
    split; reflexivity.
  - intros i Hlen Hi. rewrite get_wars_several_rounds by assumption.
    rewrite getitem_out_of_range by assumption. reflexivity.
Qed.

End LeagueGroupRounds.

(** A group on day 1, with one visible round, and a group with two
    visible rounds asked for a third one from either end. *)
Lemma get_wars_round_index_witness :
  ClanWarLeagueGroup.get_wars
    (fst (Sample.league [["#A"; "#B"]; ["#0"; "#0"]] [])) (-2) true
  = Py.Ok {| LeagueWarIterator.tags := ["#A"; "#B"]; LeagueWarIterator.cache := true |}
  /\ ClanWarLeagueGroup.get_wars
       (fst (Sample.league [["#A"; "#B"]; ["#C"; "#D"]] [])) 2 true
     = Py.Raise Py.IndexError
  /\ ClanWarLeagueGroup.get_wars
       (fst (Sample.league [["#A"; "#B"]; ["#C"; "#D"]] [])) (-3) true
     = Py.Raise Py.IndexError.
Proof.
  split; [| split].
  - apply (get_wars_round_index
             (fst (Sample.league [["#A"; "#B"]; ["#0"; "#0"]] [])) true).
    reflexivity.
  - apply (get_wars_round_index
             (fst (Sample.league [["#A"; "#B"]; ["#C"; "#D"]] [])) true).
    + simpl. lia.
    + right. simpl. unfold Py.len. simpl. lia.
  - apply (get_wars_round_index
             (fst (Sample.league [["#A"; "#B"]; ["#C"; "#D"]] [])) true).
    + simpl. lia.
    + left. simpl. unfold Py.len. simpl. lia.
Defined.

(** With two visible rounds, the default index resolves the first one and
    the index -1 the second one. *)
Example get_wars_two_rounds :
  ClanWarLeagueGroup.get_wars
    (fst (Sample.league [["#A"; "#B"]; ["#C"; "#D"]] [])) (-2) false
  = Py.Ok {| LeagueWarIterator.tags := ["#A"; "#B"]; LeagueWarIterator.cache := false |}
  /\ ClanWarLeagueGroup.get_wars
       (fst (Sample.league [["#A"; "#B"]; ["#C"; "#D"]] [])) (-1) false
     = Py.Ok {| LeagueWarIterator.tags := ["#C"; "#D"]; LeagueWarIterator.cache := false |}.
Proof. split; reflexivity. Qed.

(* ================================================================== *)
(** * ClanWarLeagueGroup.clans *)
(* ================================================================== *)

Section LeagueGroupClans.
Context {ClanData Clan : Type}.
Variable new_clan : ClanData -> Clan.

Local Abbreviation group := (ClanWarLeagueGroup.t ClanData Clan).
Local Abbreviation store := (ClanWarLeagueGroup.store ClanData).

(** A filled cache is returned as it is: nothing is allocated, nothing is
    constructed, and the group does not change. *)
Lemma clans_cached (g : group) (s : store) :
  ClanWarLeagueGroup.items (ClanWarLeagueGroup._clans g) <> [] ->
  ClanWarLeagueGroup.clans new_clan g s = (ClanWarLeagueGroup._clans g, g, s).
Proof.
  intros H. unfold ClanWarLeagueGroup.clans.
  destruct (ClanWarLeagueGroup.items (ClanWarLeagueGroup._clans g)); [congruence |].
  reflexivity.
Qed.

(** An empty cache is filled from the generator: a new list is allocated,
    and one clan is constructed for each payload that the generator still
    holds. *)
Lemma clans_materializes (g : group) (s : store) :
  ClanWarLeagueGroup.items (ClanWarLeagueGroup._clans g) = [] ->
  exists l g1 s1,
    ClanWarLeagueGroup.clans new_clan g s = (l, g1, s1)
    /\ ClanWarLeagueGroup.id l = ClanWarLeagueGroup.next_id s
    /\ ClanWarLeagueGroup.items l = map new_clan (ClanWarLeagueGroup.__iter_clans g)
    /\ ClanWarLeagueGroup._clans g1 = l
    /\ ClanWarLeagueGroup.__iter_clans g1 = []
    /\ ClanWarLeagueGroup.next_id s1 = S (ClanWarLeagueGroup.next_id s)
    /\ ClanWarLeagueGroup.constructed s1
       = ClanWarLeagueGroup.constructed s ++ ClanWarLeagueGroup.__iter_clans g.
Proof.
  intros H. unfold ClanWarLeagueGroup.clans. rewrite H. simpl.
  eexists _, _, _. repeat split.
Qed.

(** A new group has an empty cache and a generator that holds every
    payload. *)
Lemma init_state (d : ClanWarLeagueGroup.data ClanData) (s0 s : store) (g : group) :
  ClanWarLeagueGroup.__init__ d s0 = Py.Ok (g, s) ->
  ClanWarLeagueGroup.items (ClanWarLeagueGroup._clans g) = []
  /\ ClanWarLeagueGroup.__iter_clans g = payloads d.
Proof.
  unfold ClanWarLeagueGroup.__init__, ClanWarLeagueGroup._from_data. simpl.
  destruct (ClanWarLeagueGroup.data_rounds d) as [rounds |]; simpl; [| discriminate].
  destruct (ClanWarLeagueGroup.valid_rounds rounds); simpl; [| discriminate].
  intros H. injection H as <- _. split; reflexivity.
Qed.

(** Accesses to a group whose cache is filled. *)
Lemma nth_access_cached (n : nat) (g : group) (s : store) :
  ClanWarLeagueGroup.items (ClanWarLeagueGroup._clans g) <> [] ->
  nth_access new_clan n g s = (ClanWarLeagueGroup._clans g, g, s).
Proof.
  intros H. induction n as [| k IH]; simpl.
  - apply clans_cached, H.
  - rewrite (clans_cached g s H). exact IH.
Qed.

(** Accesses to a group whose cache is empty and whose generator is
    exhausted: each one allocates a new empty list. *)
Lemma nth_access_exhausted (n : nat) (g : group) (s : store) :
  ClanWarLeagueGroup.items (ClanWarLeagueGroup._clans g) = [] ->
  ClanWarLeagueGroup.__iter_clans g = [] ->
  exists l g1 s1,
    nth_access new_clan n g s = (l, g1, s1)
    /\ ClanWarLeagueGroup.id l = (ClanWarLeagueGroup.next_id s + n)%nat
    /\ ClanWarLeagueGroup.items l = []
    /\ ClanWarLeagueGroup._clans g1 = l
    /\ ClanWarLeagueGroup.next_id s1 = S (ClanWarLeagueGroup.next_id s + n)
    /\ ClanWarLeagueGroup.constructed s1 = ClanWarLeagueGroup.constructed s.
Proof.
  revert g s. induction n as [| k IH]; intros g s Hc Hg.
  - destruct (clans_materializes g s Hc)
      as (l & g1 & s1 & Heq & Hid & Hitems & Hcache & _ & Hnext & Hcons).
    exists l, g1, s1. simpl. rewrite Hg in *. simpl in *.
    rewrite app_nil_r in Hcons. rewrite Nat.add_0_r. repeat split; assumption.
  - destruct (clans_materializes g s Hc)
      as (l & g1 & s1 & Heq & Hid & Hitems & Hcache & Hgen & Hnext & Hcons).
    rewrite Hg in *. simpl in Hitems. rewrite app_nil_r in Hcons.
    destruct (IH g1 s1) as (l' & g' & s' & Heq' & Hid' & Hitems' & Hcache' & Hnext' & Hcons').
    { rewrite Hcache. exact Hitems. }
    { exact Hgen. }
    exists l', g', s'. simpl. rewrite Heq.
    repeat split; try assumption.
    + rewrite Hid', Hnext. lia.
    + rewrite Hnext', Hnext. lia.
    + rewrite Hcons'. exact Hcons.
Qed.

End LeagueGroupClans.

Section LeagueGroupMemo.
Context {ClanData Clan : Type}.
Variable new_clan : ClanData -> Clan.

(** C8, as the code has it. The first access to [clans] of a new group
    constructs one clan per payload, in order, and caches the list of
    them. Every access returns a list of that content and constructs no
    further clan. When the group has at least one clan, every access
    returns the very list that the first one cached, and leaves the group
    and the store as the first one left them; when it has none, every
    access allocates a new (empty) list. *)
Theorem clans_memoized_unless_empty
    (d : ClanWarLeagueGroup.data ClanData)
    (s0 s : ClanWarLeagueGroup.store ClanData)
    (g : ClanWarLeagueGroup.t ClanData Clan) :
  ClanWarLeagueGroup.__init__ d s0 = Py.Ok (g, s) ->
  exists l1 g1 s1,
    ClanWarLeagueGroup.clans new_clan g s = (l1, g1, s1)
    /\ ClanWarLeagueGroup.items l1 = map new_clan (payloads d)
    /\ ClanWarLeagueGroup._clans g1 = l1
    /\ ClanWarLeagueGroup.constructed s1
       = ClanWarLeagueGroup.constructed s ++ payloads d
    /\ (forall n, exists l g' s',
           nth_access new_clan n g s = (l, g', s')
           /\ ClanWarLeagueGroup.items l = ClanWarLeagueGroup.items l1
           /\ ClanWarLeagueGroup.constructed s' = ClanWarLeagueGroup.constructed s1)
    /\ (payloads d <> [] -> forall n, nth_access new_clan n g s = (l1, g1, s1))
    /\ (payloads d = [] ->
        forall n, exists l g' s',
          nth_access new_clan n g s = (l, g', s')
          /\ ClanWarLeagueGroup.id l = (ClanWarLeagueGroup.next_id s + n)%nat
          /\ ClanWarLeagueGroup.next_id s' = S (ClanWarLeagueGroup.next_id s + n)).
Proof.
  intros Hinit. destruct (init_state d s0 s g Hinit) as [Hcache Hgen].
  destruct (clans_materializes new_clan g s Hcache)
    as (l1 & g1 & s1 & Heq & Hid & Hitems & Hcache1 & Hgen1 & Hnext & Hcons).
  rewrite Hgen in Hitems, Hcons.
  exists l1, g1, s1.
  assert (Hfilled : payloads d <> [] -> forall n, nth_access new_clan n g s = (l1, g1, s1)).
  { intros Hne [| k]; simpl; [exact Heq |].
    rewrite Heq, nth_access_cached; [rewrite Hcache1; reflexivity |].
    rewrite Hcache1, Hitems. destruct (payloads d); [congruence | discriminate]. }
  assert (Hempty : payloads d = [] ->
                   forall n, exists l g' s',
                     nth_access new_clan n g s = (l, g', s')
                     /\ ClanWarLeagueGroup.id l = (ClanWarLeagueGroup.next_id s + n)%nat
                     /\ ClanWarLeagueGroup.items l = []
                     /\ ClanWarLeagueGroup.next_id s' = S (ClanWarLeagueGroup.next_id s + n)
                     /\ ClanWarLeagueGroup.constructed s' = ClanWarLeagueGroup.constructed s).
  { intros Hnil n.
    destruct (nth_access_exhausted new_clan n g s Hcache)
      as (l & g' & s' & Hn & Hidn & Hitemsn & _ & Hnextn & Hconsn).
    { rewrite Hgen. exact Hnil. }
    exists l, g', s'. repeat split; assumption. }
  repeat split; try assumption.
  - intros n. destruct (payloads d) as [| p ps] eqn:Hp.
    + destruct (Hempty eq_refl n) as (l & g' & s' & Hn & _ & Hitemsn & _ & Hconsn).
      exists l, g', s'. repeat split; [exact Hn | |].
      * rewrite Hitemsn, Hitems. reflexivity.
      * rewrite Hconsn, Hcons, app_nil_r. reflexivity.
    + exists l1, g1, s1. repeat split. apply Hfilled. discriminate.
  - intros Hnil n.
    destruct (Hempty Hnil n) as (l & g' & s' & Hn & Hidn & _ & Hnextn & _).
    exists l, g', s'. repeat split; assumption.
Qed.

End LeagueGroupMemo.

(** A group of two clans: the first access constructs both, and the fifth
    access returns the list, the group and the store of the first. *)
Lemma clans_memoized_unless_empty_witness :
  map Sample.league_clan_tag
    (ClanWarLeagueGroup.items
       (fst (fst (ClanWarLeagueGroup.clans Sample.Build_league_clan
                    (fst (Sample.league [["#A"]] ["#C1"; "#C2"]))
                    (snd (Sample.league [["#A"]] ["#C1"; "#C2"]))))))
  = ["#C1"; "#C2"]
  /\ nth_access Sample.Build_league_clan 4
       (fst (Sample.league [["#A"]] ["#C1"; "#C2"]))
       (snd (Sample.league [["#A"]] ["#C1"; "#C2"]))
     = ClanWarLeagueGroup.clans Sample.Build_league_clan
         (fst (Sample.league [["#A"]] ["#C1"; "#C2"]))
         (snd (Sample.league [["#A"]] ["#C1"; "#C2"])).
Proof.
  destruct (clans_memoized_unless_empty Sample.Build_league_clan
              (Sample.league_data [["#A"]] ["#C1"; "#C2"]) Sample.store0
              (snd (Sample.league [["#A"]] ["#C1"; "#C2"]))
              (fst (Sample.league [["#A"]] ["#C1"; "#C2"])) eq_refl)
    as (l1 & g1 & s1 & Heq & Hitems & _ & _ & _ & Hfilled & _).
  rewrite Heq. split.
  - simpl. rewrite Hitems. reflexivity.
  - apply Hfilled. discriminate.
Defined.

(** C8, as stated, fails on a group without clans: the second access
    does not return the list that the first access cached, and it
    allocates a list. *)
Lemma clans_not_memoized_without_clans :
  nth_access Sample.Build_league_clan 1
    (fst (Sample.league [["#A"]] [])) (snd (Sample.league [["#A"]] []))
  <> nth_access Sample.Build_league_clan 0
       (fst (Sample.league [["#A"]] [])) (snd (Sample.league [["#A"]] []))
  /\ ClanWarLeagueGroup.id
       (fst (fst (nth_access Sample.Build_league_clan 1
                    (fst (Sample.league [["#A"]] [])) (snd (Sample.league [["#A"]] [])))))
     <> ClanWarLeagueGroup.id
          (fst (fst (nth_access Sample.Build_league_clan 0
                       (fst (Sample.league [["#A"]] [])) (snd (Sample.league [["#A"]] [])))))
  /\ ClanWarLeagueGroup.next_id
       (snd (nth_access Sample.Build_league_clan 1
               (fst (Sample.league [["#A"]] [])) (snd (Sample.league [["#A"]] []))))
     = S (ClanWarLeagueGroup.next_id
            (snd (nth_access Sample.Build_league_clan 0
                    (fst (Sample.league [["#A"]] [])) (snd (Sample.league [["#A"]] []))))).
Proof.
  split; [| split].
  - simpl. intros H. discriminate H.
  - simpl. discriminate.
  - reflexivity.
Qed.


(* ================================================================== *)
(** * More on ClanWar.status *)
(* ================================================================== *)

(** Comparing two floats the other way round gives the opposite result. *)
Lemma SFcompare_swap (x y : spec_float) :
  SFcompare y x = option_map CompOpp (SFcompare x y).
Proof.
  destruct x as [s1 | s1 | | s1 m1 e1]; destruct y as [s2 | s2 | | s2 m2 e2];
    simpl; try reflexivity;
    try (destruct s1; try destruct s2; reflexivity);
    try (destruct s2; reflexivity).
  destruct s1, s2; simpl; try reflexivity;
    rewrite (Z.compare_antisym e1 e2);
    destruct (e1 ?= e2) eqn:E; simpl; try reflexivity;
    rewrite !Pos.compare_cont_spec; simpl;
    rewrite (Pos.compare_antisym m1 m2);
    destruct (m1 ?= m2)%positive; reflexivity.
Qed.

Lemma float_eqb_sym (x y : float) : PrimFloat.eqb x y = PrimFloat.eqb y x.
Proof.
  rewrite !eqb_spec. unfold SFeqb. rewrite (SFcompare_swap (Prim2SF y) (Prim2SF x)).
  destruct (SFcompare (Prim2SF y) (Prim2SF x)) as [[] |]; reflexivity.
Qed.

Lemma float_ltb_asym (x y : float) :
  PrimFloat.ltb x y = true -> PrimFloat.ltb y x = false.
Proof.
  rewrite !ltb_spec. unfold SFltb. rewrite (SFcompare_swap (Prim2SF x) (Prim2SF y)).
  destruct (SFcompare (Prim2SF x) (Prim2SF y)) as [[] |]; simpl; congruence.
Qed.

Lemma float_ltb_not_eqb (x y : float) :
  PrimFloat.ltb x y = true -> PrimFloat.eqb x y = false.
Proof.
  rewrite ltb_spec, eqb_spec. unfold SFltb, SFeqb.
  destruct (SFcompare (Prim2SF x) (Prim2SF y)) as [[] |]; congruence.
Qed.

(** Splits on the tests that [status] makes on a war and on the same war
    seen from the other side, with what the comparisons of floats say. *)
Ltac split_both_sides w :=
  pose proof (float_ltb_asym (WarClan.destruction (ClanWar.clan w))
                (WarClan.destruction (ClanWar.opponent w)));
  pose proof (float_ltb_not_eqb (WarClan.destruction (ClanWar.clan w))
                (WarClan.destruction (ClanWar.opponent w)));
  pose proof (float_ltb_not_eqb (WarClan.destruction (ClanWar.opponent w))
                (WarClan.destruction (ClanWar.clan w)));
  pose proof (float_eqb_sym (WarClan.destruction (ClanWar.clan w))
                (WarClan.destruction (ClanWar.opponent w)));
  destruct (Z.gtb_spec (WarClan.stars (ClanWar.clan w))
                       (WarClan.stars (ClanWar.opponent w)));
  destruct (Z.gtb_spec (WarClan.stars (ClanWar.opponent w))
                       (WarClan.stars (ClanWar.clan w)));
  destruct (Z.eqb_spec (WarClan.stars (ClanWar.clan w))
                       (WarClan.stars (ClanWar.opponent w)));
  destruct (Z.eqb_spec (WarClan.stars (ClanWar.opponent w))
                       (WarClan.stars (ClanWar.clan w)));
  try lia;
  destruct (PrimFloat.ltb (WarClan.destruction (ClanWar.opponent w))
                          (WarClan.destruction (ClanWar.clan w))) eqn:?;
  destruct (PrimFloat.ltb (WarClan.destruction (ClanWar.clan w))
                          (WarClan.destruction (ClanWar.opponent w))) eqn:?;
  destruct (PrimFloat.eqb (WarClan.destruction (ClanWar.clan w))
                          (WarClan.destruction (ClanWar.opponent w))) eqn:?;
  destruct (PrimFloat.eqb (WarClan.destruction (ClanWar.opponent w))
                          (WarClan.destruction (ClanWar.clan w))) eqn:?;
  try congruence; try (exfalso; intuition congruence).

(** X1. The two sides agree on the outcome: when one side reads
    "winning" / "won" the other side reads "losing" / "lost", and when
    one reads "tied" / "tie" so does the other. When one side reads
    "losing" / "lost" the other reads "winning" / "won", unless the stars
    are equal and the destructions cannot be compared, in which case both
    sides read "losing" / "lost". *)
Theorem status_from_the_other_side (w : ClanWar.t) :
  (ClanWar.status w = "winning" -> ClanWar.status (other_side w) = "losing")
  /\ (ClanWar.status w = "won" -> ClanWar.status (other_side w) = "lost")
  /\ (ClanWar.status w = "tied" -> ClanWar.status (other_side w) = "tied")
  /\ (ClanWar.status w = "tie" -> ClanWar.status (other_side w) = "tie")
  /\ (ClanWar.status w = "losing" ->
      ClanWar.status (other_side w) = "winning"
      \/ (ClanWar.status (other_side w) = "losing"
          /\ WarClan.stars (ClanWar.clan w) = WarClan.stars (ClanWar.opponent w)
          /\ destruction_unordered w))
  /\ (ClanWar.status w = "lost" ->
      ClanWar.status (other_side w) = "won"
      \/ (ClanWar.status (other_side w) = "lost"
          /\ WarClan.stars (ClanWar.clan w) = WarClan.stars (ClanWar.opponent w)
          /\ destruction_unordered w)).
Proof.
  unfold ClanWar.status, other_side, destruction_unordered. cbn [ClanWar.state ClanWar.clan ClanWar.opponent].
  destruct (Py.str_eq (ClanWar.state w) "inWar");
    [| destruct (Py.str_eq (ClanWar.state w) "warEnded")];
    try (repeat split; intros; discriminate);
    split_both_sides w;
    repeat split; intros; try discriminate; try reflexivity;
    try (left; reflexivity); try (right; repeat split; (reflexivity || assumption)).
Qed.

(** The sample war, where the home side is winning, and a war of equal
    stars in which the home side's destruction is not a number. *)
Lemma status_from_the_other_side_witness :
  ClanWar.status (other_side Sample.battle) = "losing"
  /\ ClanWar.status (Sample.scored (Some "inWar") 4 PrimFloat.nan 4 50%float) = "losing"
  /\ ClanWar.status (other_side (Sample.scored (Some "inWar") 4 PrimFloat.nan 4 50%float))
     = "losing".
Proof.
  split; [| split].
  - apply (status_from_the_other_side Sample.battle). reflexivity.
  - reflexivity.
  - reflexivity.
Defined.

(** X2. The status is the empty string exactly when the state is neither
    "inWar" nor "warEnded"; in state "inWar" it is one of "winning",
    "tied", "losing", and in state "warEnded" one of "won", "tie",
    "lost". *)
Theorem status_labels_of_state (w : ClanWar.t) :
  (ClanWar.status w = EmptyString <->
     ClanWar.state w <> Some "inWar" /\ ClanWar.state w <> Some "warEnded")
  /\ (ClanWar.state w = Some "inWar" ->
      In (ClanWar.status w) ["winning"; "tied"; "losing"])
  /\ (ClanWar.state w = Some "warEnded" ->
      In (ClanWar.status w) ["won"; "tie"; "lost"]).
Proof.
  split; [split |].
  - intros Hs. unfold ClanWar.status in Hs.
    destruct (ClanWar.state w) as [s |]; simpl in Hs; [| split; discriminate].
    destruct (String.eqb_spec s "inWar") as [E1 | E1].
    + exfalso. revert Hs.
      destruct (_ >? _); [discriminate |]. destruct (_ =? _); [| discriminate].
      destruct (PrimFloat.ltb _ _); [discriminate |].
      destruct (PrimFloat.eqb _ _); discriminate.
    + destruct (String.eqb_spec s "warEnded") as [E2 | E2].
      * exfalso. revert Hs.
        destruct (_ >? _); [discriminate |]. destruct (_ =? _); [| discriminate].
        destruct (PrimFloat.ltb _ _); [discriminate |].
        destruct (PrimFloat.eqb _ _); discriminate.
      * split; congruence.
  - intros [H1 H2]. apply status_other_state; assumption.
  - split; intros Hst; unfold ClanWar.status; rewrite Hst; simpl;
      destruct (_ >? _); simpl; auto;
      destruct (_ =? _); simpl; auto;
      destruct (PrimFloat.ltb _ _); simpl; auto;
      destruct (PrimFloat.eqb _ _); simpl; auto.
Qed.

Lemma status_labels_of_state_witness :
  In (ClanWar.status Sample.battle) ["winning"; "tied"; "losing"]
  /\ ClanWar.status (Sample.scored (Some "notInWar") 0 0%float 0 0%float) = EmptyString.
Proof.
  split.
  - apply (status_labels_of_state Sample.battle). reflexivity.
  - apply (status_labels_of_state (Sample.scored (Some "notInWar") 0 0%float 0 0%float)).
    split; discriminate.
Defined.


(* ================================================================== *)
(** * More on ClanWar.type *)
(* ================================================================== *)

Lemma in_prep_list_iff (x : Z) :
  ClanWar.in_prep_list x = true <-> In x ClanWar.prep_list.
Proof.
  unfold ClanWar.in_prep_list. rewrite existsb_exists. split.
  - intros (y & Hy & E). apply Z.eqb_eq in E. subst y. exact Hy.
  - intros H. exists x. split; [exact H | apply Z.eqb_refl].
Qed.

(** Below a day, the entries of [prep_list] are the ten windows shorter
    than a day. *)
Lemma prep_list_below_a_day (x : Z) :
  0 <= x < 86400 -> (In x ClanWar.prep_list <-> In x windows_below_a_day).
Proof.
  intros Hx. unfold ClanWar.prep_list, windows_below_a_day. simpl. split.
  - intros H. repeat (destruct H as [H | H]; [auto 12 |]); [lia | contradiction].
  - intros H. repeat (destruct H as [H | H]; [auto 12 |]). contradiction.
Qed.

(** X3. For a war without a true tag and with both timestamps, the type
    is "friendly" exactly when the time from preparation start to battle
    start, modulo one day, is one of the ten windows shorter than a day
    (15m to 20h), and "random" otherwise. *)
Theorem type_friendly_modulo_a_day (w : ClanWar.t) (st pt : Timestamp.t) :
  Py.truthy_str (ClanWar.war_tag w) = false ->
  ClanWar.start_time w = Some st ->
  ClanWar.preparation_start_time w = Some pt ->
  (ClanWar.type w = Py.Ok (Some "friendly") <->
     In ((Timestamp.time st - Timestamp.time pt) mod 86400) windows_below_a_day)
  /\ (ClanWar.type w = Py.Ok (Some "random") <->
      ~ In ((Timestamp.time st - Timestamp.time pt) mod 86400) windows_below_a_day).
Proof.
  intros Htag Hst Hpt. rewrite (type_timed w st pt Htag Hst Hpt).
  assert (Hr : 0 <= (Timestamp.time st - Timestamp.time pt) mod 86400 < 86400)
    by (apply Z.mod_pos_bound; lia).
  rewrite <- (prep_list_below_a_day _ Hr), <- in_prep_list_iff.
  destruct (ClanWar.in_prep_list _); split; split; intros H;
    try reflexivity; try discriminate; try congruence.
Qed.

(** A preparation of one day and two hours, and a battle that starts 23
    hours before its preparation, are both reported "friendly". *)
Lemma type_friendly_modulo_a_day_witness :
  ClanWar.type (Sample.timed None (Some 1577836800) (Some (1577836800 + 93600)))
  = Py.Ok (Some "friendly")
  /\ ClanWar.type (Sample.timed None (Some 1577836800) (Some (1577836800 - 82800)))
     = Py.Ok (Some "friendly").
Proof.
  split.
  - apply (type_friendly_modulo_a_day
             (Sample.timed None (Some 1577836800) (Some (1577836800 + 93600)))
             (Timestamp.Build_t (1577836800 + 93600)) (Timestamp.Build_t 1577836800));
      try reflexivity.
    vm_compute. auto 12.
  - apply (type_friendly_modulo_a_day
             (Sample.timed None (Some 1577836800) (Some (1577836800 - 82800)))
             (Timestamp.Build_t (1577836800 - 82800)) (Timestamp.Build_t 1577836800));
      try reflexivity.
    vm_compute. auto 12.
Defined.

(** X4. [type] raises exactly when the war has no true tag, a battle
    start and no preparation start, and then it raises [AttributeError];
    [is_cwl] raises exactly when [type] does; and when [type] returns, it
    returns [None], "cwl", "friendly" or "random". *)
Theorem type_raises_iff (w : ClanWar.t) :
  (forall e,
      ClanWar.type w = Py.Raise e <->
      Py.truthy_str (ClanWar.war_tag w) = false
      /\ ClanWar.start_time w <> None
      /\ ClanWar.preparation_start_time w = None
      /\ e = Py.AttributeError)
  /\ (forall e, ClanWar.is_cwl w = Py.Raise e <-> ClanWar.type w = Py.Raise e)
  /\ (forall ty,
      ClanWar.type w = Py.Ok ty ->
      ty = None \/ ty = Some "cwl" \/ ty = Some "friendly" \/ ty = Some "random").
Proof.
  split; [| split].
  - intros e. unfold ClanWar.type.
    destruct (Py.truthy_str (ClanWar.war_tag w)).
    { split; [discriminate | intros [H _]; discriminate]. }
    destruct (ClanWar.start_time w) as [st |]; simpl.
    2: { split; [discriminate | intros (_ & H & _); congruence]. }
    destruct (ClanWar.preparation_start_time w) as [pt |].
    + destruct (ClanWar.in_prep_list _);
        (split; [discriminate | intros (_ & _ & H & _); discriminate]).
    + split.
      * intros H. injection H as <-. repeat split. discriminate.
      * intros (_ & _ & _ & ->). reflexivity.
  - intros e. unfold ClanWar.is_cwl.
    destruct (ClanWar.type w) as [ty | e']; simpl; split; intros H;
      try discriminate; injection H as <-; reflexivity.
  - intros ty. unfold ClanWar.type.
    destruct (Py.truthy_str (ClanWar.war_tag w)).
    { intros H. injection H as <-. auto. }
    destruct (ClanWar.start_time w) as [st |]; simpl.
    2: { intros H. injection H as <-. auto. }
    destruct (ClanWar.preparation_start_time w) as [pt |]; [| discriminate].
    destruct (ClanWar.in_prep_list _); intros H; injection H as <-; auto.
Qed.

(** A war with a battle start and no preparation start: [type] and
    [is_cwl] raise, unless the war has a tag. *)
Lemma type_raises_iff_witness :
  ClanWar.type (Sample.timed None None (Some 1577836800)) = Py.Raise Py.AttributeError
  /\ ClanWar.is_cwl (Sample.timed None None (Some 1577836800))
     = Py.Raise Py.AttributeError
  /\ ClanWar.is_cwl (Sample.timed (Some "#2ABC") None (Some 1577836800)) = Py.Ok true.
Proof.
  destruct (type_raises_iff (Sample.timed None None (Some 1577836800))) as [Hty [Hcwl _]].
  assert (H : ClanWar.type (Sample.timed None None (Some 1577836800))
              = Py.Raise Py.AttributeError).
  { apply Hty. repeat split. discriminate. }
  split; [exact H | split; [apply Hcwl, H | reflexivity]].
Defined.

(* ================================================================== *)
(** * More on ClanWar.attacks and ClanWar.members *)
(* ================================================================== *)

(** [sorted] on integer keys keeps the elements of equal key in the order
    of the input. *)
Section StableOnKeys.
Context {A : Type}.
Variable key : A -> Z.
Variable reverse : bool.

Lemma insert_filter_key (k : Z) (x : A) (l : list A) :
  filter (fun a => key a =? k) (Py.insert Z.ltb key reverse x l)
  = filter (fun a => key a =? k) (x :: l).
Proof.
  induction l as [| y r IH]; [reflexivity |].
  cbn [Py.insert]. destruct (Py.stays_before Z.ltb key reverse x y) eqn:E;
    [reflexivity |].
  cbn [filter] in *. rewrite IH.
  assert (Hne : key x <> key y).
  { unfold Py.stays_before in E.
    destruct reverse; apply negb_false_iff, Z.ltb_lt in E; lia. }
  destruct (Z.eqb_spec (key x) k), (Z.eqb_spec (key y) k); try reflexivity.
  congruence.
Qed.

Lemma sorted_filter_key (k : Z) (l : list A) :
  filter (fun a => key a =? k) (Py.sorted Z.ltb key reverse l)
  = filter (fun a => key a =? k) l.
Proof.
  induction l as [| x r IH]; [reflexivity |].
  cbn [Py.sorted fold_right].
  change (fold_right (Py.insert Z.ltb key reverse) [] r)
    with (Py.sorted Z.ltb key reverse r).
  rewrite insert_filter_key. cbn [filter]. rewrite IH. reflexivity.
Qed.
End StableOnKeys.

(** X5. Whatever the orders are, the attacks view holds exactly the
    attacks of both sides, each as often as it is recorded, and no attack
    is listed before an attack of greater order. *)
Theorem attacks_permutation_descending (w : ClanWar.t) :
  Permutation (ClanWar.attacks w) (recorded_attacks w)
  /\ StronglySorted (fun a b => WarAttack.order a >= WarAttack.order b)
       (ClanWar.attacks w).
Proof. split; [apply attacks_perm | apply attacks_descending]. Qed.

(** X6. The attacks view is empty exactly when neither side has an
    attack; otherwise its first attack is a recorded attack whose order no
    recorded attack exceeds. *)
Theorem attacks_latest_first (w : ClanWar.t) :
  (ClanWar.attacks w = [] <-> recorded_attacks w = [])
  /\ (forall a rest,
      ClanWar.attacks w = a :: rest ->
      In a (recorded_attacks w)
      /\ forall b, In b (recorded_attacks w) -> WarAttack.order b <= WarAttack.order a).
Proof.
  pose proof (attacks_perm w) as Hp. fold (recorded_attacks w) in Hp.
  pose proof (attacks_descending w) as Hs.
  split.
  - split; intros H; rewrite H in Hp.
    + apply Permutation_nil, Hp.
    + apply Permutation_sym, Permutation_nil in Hp. exact Hp.
  - intros a rest Heq. rewrite Heq in Hp, Hs. split.
    + apply Permutation_in with (1 := Hp). left. reflexivity.
    + intros b Hb. apply Permutation_sym in Hp.
      apply (Permutation_in _ Hp) in Hb. inversion Hs as [| ? ? _ Hall]; subst.
      destruct Hb as [<- | Hb]; [lia |].
      rewrite Forall_forall in Hall. specialize (Hall b Hb). lia.
Qed.

(** The sample war: the attack of order 3 comes first. *)
Lemma attacks_latest_first_witness :
  In Sample.a3 (recorded_attacks Sample.battle)
  /\ forall b, In b (recorded_attacks Sample.battle) ->
               WarAttack.order b <= WarAttack.order Sample.a3.
Proof.
  destruct (attacks_latest_first Sample.battle) as [_ H].
  apply (H Sample.a3 [Sample.a2; Sample.a1]). reflexivity.
Defined.

(** X7. Attacks of the same order are listed in the order in which they
    are recorded, the home side's before the opponent side's. *)
Theorem attacks_ties_in_recorded_order (w : ClanWar.t) (k : Z) :
  filter (fun a => WarAttack.order a =? k) (ClanWar.attacks w)
  = filter (fun a => WarAttack.order a =? k) (recorded_attacks w).
Proof. apply sorted_filter_key. Qed.

Lemma tuple_lt_asym (a b : bool * Z) :
  Py.tuple_lt a b = true -> Py.tuple_lt b a = false.
Proof.
  destruct a as [[] x], b as [[] y]; unfold Py.tuple_lt; simpl;
    try discriminate; try reflexivity; intros H; apply Z.ltb_lt in H;
    apply Z.ltb_ge; lia.
Qed.

Lemma tuple_lt_negtrans (a b c : bool * Z) :
  Py.tuple_lt a b = false -> Py.tuple_lt b c = false -> Py.tuple_lt a c = false.
Proof.
  destruct a as [[] x], b as [[] y], c as [[] z]; unfold Py.tuple_lt; simpl;
    try discriminate; try reflexivity; intros H1 H2;
    apply Z.ltb_ge in H1; apply Z.ltb_ge in H2; apply Z.ltb_ge; lia.
Qed.

(** X8. Whatever the flags are, the members view holds exactly the
    members of both rosters, and it is ordered by the flag first: of two
    members, the one listed first is flagged as opponent while the other
    is not, or they carry the same flag and the first one's map position
    is not greater. *)
Theorem members_permutation_by_flag (w : ClanWar.t) :
  Permutation (ClanWar.members w) (roster w)
  /\ StronglySorted listed_before (ClanWar.members w).
Proof.
  split; [apply sorted_perm |].
  unfold ClanWar.members.
  eapply StronglySorted_weaken; [| apply sorted_sorted].
  - intros x y _ _. unfold Py.stays_before, Py.tuple_lt, listed_before.
    cbn [fst snd].
    destruct (ClanWarMember.is_opponent x), (ClanWarMember.is_opponent y);
      cbn [negb Bool.eqb Py.bool_lt andb]; intros H.
    + right. apply negb_true_iff, Z.ltb_ge in H. split; [reflexivity | exact H].
    + left. split; reflexivity.
    + discriminate H.
    + right. apply negb_true_iff, Z.ltb_ge in H. split; [reflexivity | exact H].
  - apply tuple_lt_asym.
  - apply tuple_lt_negtrans.
Qed.

(* ================================================================== *)
(** * ClanWar.get_member and ClanWar.get_member_by *)
(* ================================================================== *)

Lemma find_none_iff {A : Type} (f : A -> bool) (l : list A) :
  find f l = None <-> forall x, In x l -> f x = false.
Proof.
  split; [apply find_none |].
  induction l as [| y r IH]; simpl; [reflexivity |].
  intros H. rewrite (H y (or_introl eq_refl)). apply IH.
  intros x Hx. apply H. right. exact Hx.
Qed.

Lemma find_app_first {A : Type} (f : A -> bool) (l1 l2 : list A) :
  find f (l1 ++ l2) = match find f l1 with
                      | Some x => Some x
                      | None => find f l2
                      end.
Proof.
  induction l1 as [| y r IH]; simpl; [reflexivity |].
  destruct (f y); [reflexivity | exact IH].
Qed.

Lemma find_exists {A : Type} (f : A -> bool) (l : list A) (x : A) :
  In x l -> f x = true -> exists y, find f l = Some y.
Proof.
  intros Hx Hf. destruct (find f l) as [y |] eqn:E; [eexists; reflexivity |].
  rewrite (find_none f l E x Hx) in Hf. discriminate.
Qed.

(** X9. With the roster lookup of a side as the first member carrying
    the tag: [get_member] returns a member of one of the two rosters that
    carries the requested tag; it returns [None] exactly when no member of
    either roster carries the tag; and when a home member carries the
    tag, a home member is returned, whatever the opponent's roster
    holds. *)
Theorem get_member_finds_tag (w : ClanWar.t) (tag : string) :
  (forall m,
      ClanWar.get_member w tag = Some m ->
      ClanWarMember.tag m = tag /\ In m (roster w))
  /\ (ClanWar.get_member w tag = None <->
      forall m, In m (roster w) -> ClanWarMember.tag m <> tag)
  /\ (forall h,
      In h (WarClan.members (ClanWar.clan w)) ->
      ClanWarMember.tag h = tag ->
      exists m, ClanWar.get_member w tag = Some m
                /\ In m (WarClan.members (ClanWar.clan w))).
Proof.
  unfold ClanWar.get_member, WarClan.get_member, roster.
  split; [| split].
  - intros m H.
    destruct (find _ (WarClan.members (ClanWar.clan w))) as [h |] eqn:Eh; simpl in H.
    + injection H as <-. apply find_some in Eh. destruct Eh as [Hin Htag].
      apply String.eqb_eq in Htag. split; [exact Htag | apply in_or_app; left; exact Hin].
    + apply find_some in H. destruct H as [Hin Htag].
      apply String.eqb_eq in Htag. split; [exact Htag | apply in_or_app; right; exact Hin].
  - split.
    + intros H m Hm.
      destruct (find _ (WarClan.members (ClanWar.clan w))) as [h |] eqn:Eh; simpl in H;
        [discriminate |].
      apply in_app_or in Hm. destruct Hm as [Hm | Hm].
      * apply (find_none _ _ Eh) in Hm. apply String.eqb_neq. exact Hm.
      * apply (find_none _ _ H) in Hm. apply String.eqb_neq. exact Hm.
    + intros H.
      assert (Hh : find (fun m => String.eqb (ClanWarMember.tag m) tag)
                     (WarClan.members (ClanWar.clan w)) = None).
      { apply find_none_iff. intros x Hx. apply String.eqb_neq, H, in_or_app. left. exact Hx. }
      rewrite Hh. simpl.
      apply find_none_iff. intros x Hx. apply String.eqb_neq, H, in_or_app. right. exact Hx.
  - intros h Hin Htag.
    destruct (find_exists (fun m => String.eqb (ClanWarMember.tag m) tag)
                (WarClan.members (ClanWar.clan w)) h Hin) as [m Hm].
    { apply String.eqb_eq, Htag. }
    rewrite Hm. simpl. exists m. split; [reflexivity |].
    apply find_some in Hm. apply Hm.
Qed.

(** The sample war: a home member, an opponent, and an unknown tag. *)
Lemma get_member_finds_tag_witness :
  (exists m, ClanWar.get_member Sample.battle "#H1" = Some m
             /\ In m (WarClan.members (ClanWar.clan Sample.battle)))
  /\ ClanWar.get_member Sample.battle "#NOBODY" = None.
Proof.
  split.
  - apply (get_member_finds_tag Sample.battle "#H1") with (h := Sample.h1).
    + right. left. reflexivity.
    + reflexivity.
  - apply (get_member_finds_tag Sample.battle "#NOBODY").
    intros m Hm. simpl in Hm.
    destruct Hm as [<- | [<- | [<- | [<- | []]]]]; discriminate.
Defined.

(** X10. With [get] as the first match: when [is_opponent] tells the
    sides apart and the opponent side has a member at map position [p],
    [get_member_by(map_position=p)] returns an opponent-side member at
    that position, also when the home side has one; and it returns [None]
    exactly when no member of either roster is at position [p]. *)
Theorem get_member_by_position_opponent_first (w : ClanWar.t) (p : Z) :
  sides_marked w ->
  (forall o,
      In o (WarClan.members (ClanWar.opponent w)) ->
      ClanWarMember.map_position o = p ->
      exists m,
        ClanWar.get_member_by Z.eqb ClanWarMember.map_position p w = Some m
        /\ In m (WarClan.members (ClanWar.opponent w))
        /\ ClanWarMember.map_position m = p)
  /\ (ClanWar.get_member_by Z.eqb ClanWarMember.map_position p w = None <->
      forall m, In m (roster w) -> ClanWarMember.map_position m <> p).
Proof.
  intros Hw. unfold ClanWar.get_member_by, utils.get. split.
  - intros o Ho Hp. rewrite (members_by_side w Hw), find_app_first.
    destruct (find_exists (fun elem => ClanWarMember.map_position elem =? p)
                (Py.sorted Z.ltb ClanWarMember.map_position false
                   (WarClan.members (ClanWar.opponent w))) o) as [m Hm].
    { apply sorted_In, Ho. }
    { apply Z.eqb_eq, Hp. }
    rewrite Hm. exists m. apply find_some in Hm. destruct Hm as [Hin Hpos].
    split; [reflexivity |]. split; [apply sorted_In in Hin; exact Hin |].
    apply Z.eqb_eq, Hpos.
  - rewrite find_none_iff. split.
    + intros H m Hm. apply Z.eqb_neq, H.
      apply Permutation_in with (roster w); [| exact Hm].
      apply Permutation_sym, sorted_perm.
    + intros H m Hm. apply Z.eqb_neq, H.
      apply Permutation_in with (ClanWar.members w); [| exact Hm].
      apply sorted_perm.
Qed.

(** The sample war: both sides have a member at position 1, and the
    opponent's is returned. *)
Lemma get_member_by_position_opponent_first_witness :
  ClanWar.get_member_by Z.eqb ClanWarMember.map_position 1 Sample.battle
  = Some Sample.o1
  /\ exists m,
       ClanWar.get_member_by Z.eqb ClanWarMember.map_position 1 Sample.battle = Some m
       /\ In m (WarClan.members (ClanWar.opponent Sample.battle))
       /\ ClanWarMember.map_position m = 1.
Proof.
  split; [reflexivity |].
  apply (get_member_by_position_opponent_first Sample.battle 1) with (o := Sample.o1).
  - split; simpl; repeat constructor.
  - right. left. reflexivity.
  - reflexivity.
Defined.

(* ================================================================== *)
(** * More on WarAttack.is_fresh_attack *)
(* ================================================================== *)

(** X11. [is_fresh_attack] raises [AttributeError] exactly when the
    defender tag resolves to no member, raises [ValueError] exactly when
    the defender resolves and has no recorded defense, and raises nothing
    else. *)
Theorem is_fresh_attack_raises_iff (w : ClanWar.t) (a : WarAttack.t) :
  (ClanWar.is_fresh_attack w a = Py.Raise Py.AttributeError <-> defender_in w a = None)
  /\ (ClanWar.is_fresh_attack w a = Py.Raise Py.ValueError <->
      exists d, defender_in w a = Some d /\ ClanWarMember.defenses d = [])
  /\ (forall e,
      ClanWar.is_fresh_attack w a = Py.Raise e ->
      e = Py.AttributeError \/ e = Py.ValueError).
Proof.
  unfold ClanWar.is_fresh_attack, WarAttack.is_fresh_attack, defender_in.
  destruct (WarAttack.defender (ClanWar.get_member w) a) as [d |].
  - destruct (ClanWarMember.defenses d) as [| b [| c r]] eqn:Hd.
    + cbn. split; [| split].
      * split; discriminate.
      * split; [intros _; exists d; split; [reflexivity | exact Hd] | reflexivity].
      * intros e H. right. congruence.
    + cbn. split; [| split].
      * split; discriminate.
      * split; [discriminate |].
        intros (d' & H & Hnil). injection H as <-. congruence.
      * discriminate.
    + assert (Hlen : (Py.len (b :: c :: r) =? 1) = false).
      { apply Z.eqb_neq. unfold Py.len. simpl List.length. lia. }
      rewrite Hlen. cbn [map Py.min Py.bind]. split; [| split].
      * split; discriminate.
      * split; [discriminate |].
        intros (d' & H & Hnil). injection H as <-. congruence.
      * discriminate.
  - split; [| split].
    + split; reflexivity.
    + split; [discriminate | intros (d & H & _); discriminate].
    + intros e H. left. congruence.
Qed.

(** The sample war: no member has the tag "#NOBODY", and the second
    opponent has no recorded defense. *)
Lemma is_fresh_attack_raises_iff_witness :
  ClanWar.is_fresh_attack Sample.battle (Sample.attack 4 "#H1" "#NOBODY")
  = Py.Raise Py.AttributeError
  /\ ClanWar.is_fresh_attack Sample.battle (Sample.attack 4 "#H1" "#O2")
     = Py.Raise Py.ValueError.
Proof.
  split.
  - apply (is_fresh_attack_raises_iff Sample.battle (Sample.attack 4 "#H1" "#NOBODY")).
    reflexivity.
  - apply (is_fresh_attack_raises_iff Sample.battle (Sample.attack 4 "#H1" "#O2")).
    exists Sample.o2. split; reflexivity.
Defined.

(** X12. Whatever the orders are: when a member has recorded defenses
    and each of them resolves to that member, at least one of them is
    fresh, and every fresh one has the lowest order of them all. *)
Theorem some_defense_is_fresh (w : ClanWar.t) (d : ClanWarMember.t) :
  ClanWarMember.defenses d <> [] ->
  (forall a, In a (ClanWarMember.defenses d) -> defender_in w a = Some d) ->
  (exists a, In a (ClanWarMember.defenses d)
             /\ ClanWar.is_fresh_attack w a = Py.Ok true)
  /\ (forall a,
      In a (ClanWarMember.defenses d) ->
      ClanWar.is_fresh_attack w a = Py.Ok true ->
      forall b, In b (ClanWarMember.defenses d) ->
                WarAttack.order a <= WarAttack.order b).
Proof.
  intros Hne Hres.
  destruct (ClanWarMember.defenses d) as [| a0 [| a1 r]] eqn:Hd; [congruence | |].
  - split.
    + exists a0. split; [left; reflexivity |].
      apply (is_fresh_attack_single w a0 d); [apply Hres; left; reflexivity |].
      rewrite Hd. reflexivity.
    + intros a [<- | []] _ b [<- | []]. lia.
  - assert (Hlen : (2 <= List.length (ClanWarMember.defenses d))%nat)
      by (rewrite Hd; simpl; lia).
    rewrite <- Hd in *. split.
    + destruct (min_is_minimum (defense_orders d)) as [m [_ Hmin]].
      { unfold defense_orders. rewrite Hd. discriminate. }
      pose proof Hmin as [Hin _].
      apply in_map_iff in Hin. destruct Hin as [a [Ha Hin]].
      exists a. split; [exact Hin |].
      destruct (is_fresh_attack_several w a d (Hres a Hin) Hlen) as [m' [Hmin' ->]].
      rewrite (is_minimum_unique m' m _ Hmin' Hmin), Ha, Z.eqb_refl. reflexivity.
    + intros a Ha Hfresh b Hb.
      destruct (is_fresh_attack_several w a d (Hres a Ha) Hlen) as [m [[_ Hle] Heq]].
      rewrite Heq in Hfresh. injection Hfresh as Hfresh. apply Z.eqb_eq in Hfresh.
      rewrite Hfresh. apply Hle. unfold defense_orders. apply in_map, Hb.
Qed.

(** The sample war: of the two attacks on the first opponent one is
    fresh, and it has the lowest order. *)
Lemma some_defense_is_fresh_witness :
  (exists a, In a (ClanWarMember.defenses Sample.o1)
             /\ ClanWar.is_fresh_attack Sample.battle a = Py.Ok true)
  /\ (forall a,
      In a (ClanWarMember.defenses Sample.o1) ->
      ClanWar.is_fresh_attack Sample.battle a = Py.Ok true ->
      forall b, In b (ClanWarMember.defenses Sample.o1) ->
                WarAttack.order a <= WarAttack.order b).
Proof.
  apply (some_defense_is_fresh Sample.battle Sample.o1).
  - discriminate.
  - simpl. intros a [<- | [<- | []]]; reflexivity.
Defined.

(* ================================================================== *)
(** * More on ClanWarLeagueGroup *)
(* ================================================================== *)


Lemma round_started_iff (war_tags : list string) :
  round_started war_tags = true <->
  exists first more, war_tags = first :: more /\ first <> "#0".
Proof.
  destruct war_tags as [| first more]; simpl.
  - split; [discriminate | intros (f & m & H & _); discriminate].
  - rewrite negb_true_iff, String.eqb_neq. split.
    + intros H. exists first, more. split; [reflexivity | exact H].
    + intros (f & m & H & Hne). injection H as -> _. exact Hne.
Qed.

Section LeagueGroupMore.
Context {ClanData Clan : Type}.

Local Abbreviation group := (ClanWarLeagueGroup.t ClanData Clan).

(** What [_from_data] returns, in terms of the declared rounds. *)
Lemma rounds_filtered_by_first_tag_aux (self g : group)
    (d : ClanWarLeagueGroup.data ClanData) :
  ClanWarLeagueGroup._from_data self d = Py.Ok g ->
  exists rounds declared,
    ClanWarLeagueGroup.data_rounds d = Some rounds
    /\ declares rounds declared
    /\ ClanWarLeagueGroup.rounds g = filter round_started declared
    /\ ClanWarLeagueGroup.number_of_rounds g = Py.len declared.
Proof.
  unfold ClanWarLeagueGroup._from_data. intros H.
  destruct (ClanWarLeagueGroup.data_rounds d) as [rounds |]; simpl in H; [| discriminate].
  destruct (ClanWarLeagueGroup.valid_rounds rounds) as [valid |] eqn:Hv; simpl in H;
    [| discriminate].
  destruct (valid_rounds_filter rounds valid Hv) as (declared & Hd & _ & ->).
  injection H as <-. exists rounds, declared. simpl.
  repeat split; try assumption.
  unfold Py.len. rewrite <- (length_map ClanWarLeagueGroup.warTags), Hd, length_map.
  reflexivity.
Qed.

(** X13. In a group that [_from_data] returns, every visible round has a
    first war tag other than "#0", there are at most [number_of_rounds]
    visible rounds, the state and the season are those of the payload,
    the generator holds every clan payload, and the cache of clans is the
    one that the group had before. *)
Theorem from_data_invariants (self g : group) (d : ClanWarLeagueGroup.data ClanData) :
  ClanWarLeagueGroup._from_data self d = Py.Ok g ->
  Forall (fun round => exists first more, round = first :: more /\ first <> "#0")
    (ClanWarLeagueGroup.rounds g)
  /\ 0 <= Py.len (ClanWarLeagueGroup.rounds g) <= ClanWarLeagueGroup.number_of_rounds g
  /\ ClanWarLeagueGroup.state g = ClanWarLeagueGroup.data_state d
  /\ ClanWarLeagueGroup.season g = ClanWarLeagueGroup.data_season d
  /\ ClanWarLeagueGroup.__iter_clans g = payloads d
  /\ ClanWarLeagueGroup._clans g = ClanWarLeagueGroup._clans self.
Proof.
  intros H.
  destruct (rounds_filtered_by_first_tag_aux self g d H)
    as (rounds & declared & Hr & Hd & Hrounds & Hn).
  split; [| split].
  - rewrite Hrounds. apply Forall_forall. intros round Hin.
    apply filter_In in Hin. apply round_started_iff, Hin.
  - rewrite Hrounds, Hn. unfold Py.len. pose proof (filter_length_le round_started declared).
    lia.
  - unfold ClanWarLeagueGroup._from_data in H. rewrite Hr in H. cbn [Py.bind] in H.
    destruct (ClanWarLeagueGroup.valid_rounds rounds); cbn [Py.bind] in H;
      [| discriminate].
    injection H as <-. repeat split.
Qed.

End LeagueGroupMore.

Section LeagueGroupErrors.
Context {ClanData Clan : Type}.

Local Abbreviation group := (ClanWarLeagueGroup.t ClanData Clan).


Lemma getitem_in {A : Type} (l : list A) (i : Z) (x : A) :
  Py.getitem l i = Py.Ok x -> In x l.
Proof.
  unfold Py.getitem.
  destruct ((_ <? 0) || (_ <=? _)); [discriminate |].
  destruct (nth_error l _) as [y |] eqn:E; [| discriminate].
  intros H. injection H as <-. apply nth_error_In with (1 := E).
Qed.

Lemma getitem_raises {A : Type} (l : list A) (i : Z) (e : Py.exn) :
  Py.getitem l i = Py.Raise e -> e = Py.IndexError.
Proof.
  unfold Py.getitem.
  destruct ((_ <? 0) || (_ <=? _)); [congruence |].
  destruct (nth_error l _); [discriminate | congruence].
Qed.

(** X16. [get_wars] returns exactly when there is one visible round and
    the index is not 1, or there is another number of visible rounds and
    the index is between minus that number and that number less one; in
    every other case it raises [IndexError]. When it returns, the tags are
    those of a visible round and the cache flag is the one passed. *)
Theorem get_wars_returns_iff (g : group) (i : Z) (cache : bool) :
  ((exists it, ClanWarLeagueGroup.get_wars g i cache = Py.Ok it) <->
     (Py.len (ClanWarLeagueGroup.rounds g) = 1 /\ i <> 1)
     \/ (Py.len (ClanWarLeagueGroup.rounds g) <> 1
         /\ - Py.len (ClanWarLeagueGroup.rounds g) <= i
            < Py.len (ClanWarLeagueGroup.rounds g)))
  /\ (forall e, ClanWarLeagueGroup.get_wars g i cache = Py.Raise e -> e = Py.IndexError)
  /\ (forall it,
      ClanWarLeagueGroup.get_wars g i cache = Py.Ok it ->
      In (LeagueWarIterator.tags it) (ClanWarLeagueGroup.rounds g)
      /\ LeagueWarIterator.cache it = cache).
Proof.
  split; [| split].
  - destruct (Z.eq_dec (Py.len (ClanWarLeagueGroup.rounds g)) 1) as [H1 | H1].
    + assert (Hr : exists round, ClanWarLeagueGroup.rounds g = [round]).
      { unfold Py.len in H1. destruct (ClanWarLeagueGroup.rounds g) as [| r [| r' l]];
          simpl in H1; try lia. exists r. reflexivity. }
      destruct Hr as [round Hr]. split.
      * intros [it H]. left. split; [exact H1 |]. intros ->.
        rewrite (get_wars_single_round_index_1 g round cache Hr) in H. discriminate.
      * intros [[_ Hi] | [Hne _]]; [| congruence].
        eexists. apply (get_wars_single_round g round i cache Hr Hi).
    + unfold ClanWarLeagueGroup.get_wars.
      destruct (Z.eqb_spec (Py.len (ClanWarLeagueGroup.rounds g)) 1); [congruence |].
      cbn [andb]. split.
      * intros [it H]. right. split; [exact H1 |].
        destruct (Z_lt_ge_dec i (- Py.len (ClanWarLeagueGroup.rounds g))) as [Hlo | Hlo].
        { rewrite getitem_out_of_range in H by (left; exact Hlo). discriminate. }
        destruct (Z_lt_ge_dec i (Py.len (ClanWarLeagueGroup.rounds g))) as [Hhi | Hhi];
          [lia |].
        rewrite getitem_out_of_range in H by (right; lia). discriminate.
      * intros [[Heq _] | [_ Hi]]; [congruence |].
        destruct (getitem_in_range _ i Hi) as (round & -> & _).
        eexists. reflexivity.
  - intros e. unfold ClanWarLeagueGroup.get_wars.
    destruct (Py.getitem _ _) as [tags | e'] eqn:E; cbn [Py.bind]; [discriminate |].
    intros H. injection H as <-. apply (getitem_raises _ _ _ E).
  - intros it. unfold ClanWarLeagueGroup.get_wars.
    destruct (Py.getitem _ _) as [tags | e'] eqn:E; cbn [Py.bind]; [| discriminate].
    intros H. injection H as <-. split; [| reflexivity].
    apply (getitem_in _ _ _ E).
Qed.

(** X17. With two visible rounds or more, [get_wars] with the default
    round index resolves the round before the last visible one. *)
Theorem get_wars_default_second_to_last (g : group) (cache : bool)
    (earlier : list (list string)) (current next : list string) :
  ClanWarLeagueGroup.rounds g = earlier ++ [current; next] ->
  ClanWarLeagueGroup.get_wars g ClanWarLeagueGroup.default_round_index cache
  = Py.Ok {| LeagueWarIterator.tags := current; LeagueWarIterator.cache := cache |}.
Proof.
  intros Hr.
  assert (Hlen : Py.len (ClanWarLeagueGroup.rounds g) = Z.of_nat (List.length earlier) + 2).
  { unfold Py.len. rewrite Hr, length_app. simpl. lia. }
  rewrite get_wars_several_rounds by (unfold Py.len in Hlen; lia).
  unfold ClanWarLeagueGroup.default_round_index.
  destruct (getitem_in_range (ClanWarLeagueGroup.rounds g) (-2)) as (round & -> & Hnth);
    [lia |].
  cbn [Py.bind]. f_equal. f_equal.
  change (-2 <? 0) with true in Hnth. cbv iota in Hnth.
  rewrite Hlen in Hnth.
  replace (Z.to_nat (-2 + (Z.of_nat (List.length earlier) + 2)))
    with (List.length earlier + 0)%nat in Hnth by lia.
  rewrite Hr, nth_error_app2 in Hnth by lia.
  replace (List.length earlier + 0 - List.length earlier)%nat with 0%nat in Hnth by lia.
  simpl in Hnth. congruence.
Qed.

(** X18. When every round of the payload starts with the placeholder
    "#0", the group has no visible round, and [get_wars] raises
    [IndexError] for every round index, the default one included. *)
Theorem get_wars_before_first_round (self g : group)
    (d : ClanWarLeagueGroup.data ClanData) (rounds : list ClanWarLeagueGroup.round_data) :
  ClanWarLeagueGroup._from_data self d = Py.Ok g ->
  ClanWarLeagueGroup.data_rounds d = Some rounds ->
  Forall (fun n => exists more, ClanWarLeagueGroup.warTags n = Some ("#0" :: more)) rounds ->
  ClanWarLeagueGroup.rounds g = []
  /\ forall i cache, ClanWarLeagueGroup.get_wars g i cache = Py.Raise Py.IndexError.
Proof.
  intros H Hr Hall.
  assert (Hempty : ClanWarLeagueGroup.rounds g = []).
  { destruct (rounds_filtered_by_first_tag_aux self g d H)
      as (rounds' & declared & Hr' & Hd & -> & _).
    rewrite Hr in Hr'. injection Hr' as <-. unfold declares in Hd.
    clear H Hr. revert declared Hd.
    induction Hall as [| n rest [more Hn] _ IH]; intros [| war_tags declared] Hd;
      simpl in Hd; try discriminate; [reflexivity |].
    injection Hd as Hn' Hrest. rewrite Hn in Hn'. injection Hn' as <-.
    simpl. apply IH, Hrest. }
  split; [exact Hempty |].
  intros i cache. unfold ClanWarLeagueGroup.get_wars. rewrite Hempty.
  cbn [Py.len List.length Z.of_nat Z.eqb andb]. rewrite getitem_empty. reflexivity.
Qed.

End LeagueGroupErrors.

(** A payload of two started rounds and a placeholder round. *)
Lemma from_data_invariants_witness :
  exists g : ClanWarLeagueGroup.t string Sample.league_clan,
    ClanWarLeagueGroup._from_data (fst (Sample.league [] []))
      (Sample.league_data [["#A"; "#B"]; ["#C"; "#D"]; ["#0"; "#0"]] ["#C1"]) = Py.Ok g
    /\ 0 <= Py.len (ClanWarLeagueGroup.rounds g) <= ClanWarLeagueGroup.number_of_rounds g
    /\ ClanWarLeagueGroup.__iter_clans g = ["#C1"].
Proof.
  eexists. split; [reflexivity |].
  destruct (from_data_invariants (fst (Sample.league [] [])) _
              (Sample.league_data [["#A"; "#B"]; ["#C"; "#D"]; ["#0"; "#0"]] ["#C1"])
              eq_refl) as (_ & Hlen & _ & _ & Hgen & _).
  split; [exact Hlen | exact Hgen].
Defined.


(** One visible round: index 0 resolves it. No visible round: no index
    is in range. *)
Lemma get_wars_returns_iff_witness :
  (exists it,
      ClanWarLeagueGroup.get_wars (fst (Sample.league [["#A"; "#B"]] [])) 0 true
      = Py.Ok it)
  /\ ~ (exists it,
           ClanWarLeagueGroup.get_wars (fst (Sample.league [["#0"]] [])) (-1) true
           = Py.Ok it).
Proof.
  split.
  - apply (get_wars_returns_iff (fst (Sample.league [["#A"; "#B"]] [])) 0 true).
    left. split; [reflexivity | discriminate].
  - intros H.
    apply (get_wars_returns_iff (fst (Sample.league [["#0"]] [])) (-1) true) in H.
    destruct H as [[H _] | [_ H]]; [discriminate H |].
    unfold Py.len in H. simpl in H. lia.
Defined.

(** Three visible rounds: the default index resolves the second. *)
Lemma get_wars_default_second_to_last_witness :
  ClanWarLeagueGroup.get_wars
    (fst (Sample.league [["#A"; "#B"]; ["#C"; "#D"]; ["#E"; "#F"]] [])) (-2) true
  = Py.Ok {| LeagueWarIterator.tags := ["#C"; "#D"]; LeagueWarIterator.cache := true |}.
Proof.
  apply (get_wars_default_second_to_last
           (fst (Sample.league [["#A"; "#B"]; ["#C"; "#D"]; ["#E"; "#F"]] [])) true
           [["#A"; "#B"]] ["#C"; "#D"] ["#E"; "#F"]).
  reflexivity.
Defined.

(** A league whose rounds are all placeholders. *)
Lemma get_wars_before_first_round_witness :
  exists g : ClanWarLeagueGroup.t string Sample.league_clan,
    ClanWarLeagueGroup._from_data (fst (Sample.league [] []))
      (Sample.league_data [["#0"; "#0"]; ["#0"; "#0"]] ["#C1"]) = Py.Ok g
    /\ ClanWarLeagueGroup.get_wars g (-2) true = Py.Raise Py.IndexError.
Proof.
  eexists. split; [reflexivity |].
  apply (get_wars_before_first_round (fst (Sample.league [] [])) _
           (Sample.league_data [["#0"; "#0"]; ["#0"; "#0"]] ["#C1"])
           (map Sample.round [["#0"; "#0"]; ["#0"; "#0"]]) eq_refl eq_refl).
  repeat constructor; eexists; reflexivity.
Defined.
